(** * A shallow embedding of [app.py], the sacred-text chatbot endpoint

    The Flask application answers a query with a verse of the Thirukkural
    or of the Bhagavad Gita.  It keeps one message log per text, asks a
    language model for a structured reply, and relays three fields of the
    reply through a translation service for ten locales.

    Modelling conventions.
    - A Python [str] is a [string]: the code points of the text written
      in UTF-8 (a lone surrogate takes three bytes like any other code
      point of its range).  Equality, concatenation and the search for an
      ASCII keyword are the same on the bytes as on the code points.
    - [str.lower()], [str.split()] and the formatting of a value inside an
      f-string follow the Unicode tables of the Python runtime, which are
      no part of the repository.  They are parameters ([Python]), known
      only where every runtime agrees: on ASCII text, and in that
      lower-casing keeps the number of words.
    - The body of a request is what [request.json] gives: a JSON value of
      any shape, or the error the framework raises when there is none.
    - A Python exception is its message ([str(e)]); a computation that can
      raise returns an [outcome].
    - The module-level logs and the calls to the outside world (language
      model, HTTP post, logging) are threaded through a state monad whose
      state holds the two logs and the trace of outside calls made so far.
      The outside world answers as a function of that trace, so an
      answer may differ from one call to the next.
    - A dict is a [gmap] with string keys. *)

From Stdlib Require Import ZArith Ascii.
From stdpp Require Import gmap strings list fin_maps pretty.

Local Open Scope Z_scope.

(** ** Python strings *)

Definition nl : string := String (ascii_of_nat 10) "".
Definition dq : string := String (ascii_of_nat 34) "".

Definition is_upper (c : ascii) : bool :=
  ((65 <=? N_of_ascii c) && (N_of_ascii c <=? 90))%N.

Definition is_lower (c : ascii) : bool :=
  ((97 <=? N_of_ascii c) && (N_of_ascii c <=? 122))%N.

Definition lower_char (c : ascii) : ascii :=
  if is_upper c then ascii_of_N (N_of_ascii c + 32) else c.

Definition upper_char (c : ascii) : ascii :=
  if is_lower c then ascii_of_N (N_of_ascii c - 32) else c.

(** Every character of the text is an ASCII character. *)
Fixpoint is_ascii (s : string) : bool :=
  match s with
  | EmptyString => true
  | String c s' => (N_of_ascii c <? 128)%N && is_ascii s'
  end.

(** [s.lower()] on ASCII text. *)
Fixpoint ascii_lower (s : string) : string :=
  match s with
  | EmptyString => EmptyString
  | String c s' => String (lower_char c) (ascii_lower s')
  end.

(** The ASCII white space of [str.split()]: tab, line feed, vertical
    tab, form feed, carriage return, the four separators 28..31, and
    space. *)
Definition ascii_isspace (c : ascii) : bool :=
  let n := N_of_ascii c in
  (((9 <=? n) && (n <=? 13)) || ((28 <=? n) && (n <=? 31)) || (n =? 32))%N.

(** [s.split()] on ASCII text: the maximal runs of characters that are
    not white space, in order.  [w] is the run being read. *)
Fixpoint split_go (w : string) (s : string) : list string :=
  match s with
  | EmptyString => if String.eqb w "" then [] else [w]
  | String c s' =>
      if ascii_isspace c
      then (if String.eqb w "" then split_go "" s' else w :: split_go "" s')
      else split_go (w +:+ String c "") s'
  end.

Definition ascii_split (s : string) : list string := split_go "" s.

(** [s.startswith(p)] *)
Fixpoint startswith (p s : string) : bool :=
  match p, s with
  | EmptyString, _ => true
  | String _ _, EmptyString => false
  | String a p', String b s' => Ascii.eqb a b && startswith p' s'
  end.

(** [kw in s] on strings: [kw] occurs in [s] as a contiguous run. *)
Fixpoint contains (kw s : string) : bool :=
  startswith kw s ||
  match s with
  | EmptyString => false
  | String _ s' => contains kw s'
  end.

(** [any(keyword in s for keyword in keywords)] *)
Definition any_keyword_in (keywords : list string) (s : string) : bool :=
  existsb (fun keyword => contains keyword s) keywords.

(** [x in xs] for a list of strings. *)
Definition in_list (x : string) (xs : list string) : bool :=
  existsb (String.eqb x) xs.

(** [s.replace(a, b)] for one-character [a] and [b]. *)
Fixpoint replace_char (a b : ascii) (s : string) : string :=
  match s with
  | EmptyString => EmptyString
  | String c s' => String (if Ascii.eqb c a then b else c) (replace_char a b s')
  end.

(** [s.title()] on ASCII text, which is all the code applies it to (the
    two domain names): a letter that follows a letter is lower-cased,
    any other letter is upper-cased.  [prev] tells whether the previous
    character was a letter. *)
Fixpoint title_go (prev : bool) (s : string) : string :=
  match s with
  | EmptyString => EmptyString
  | String c s' =>
      let cased := is_upper c || is_lower c in
      String (if prev then lower_char c else upper_char c) (title_go cased s')
  end.

Definition title (s : string) : string := title_go false s.

(** [s[n:]] for a natural [n]. *)
Fixpoint drop_chars (n : nat) (s : string) : string :=
  match n, s with
  | O, _ => s
  | S _, EmptyString => EmptyString
  | S n', String _ s' => drop_chars n' s'
  end.

(** [sep.join(parts)] *)
Fixpoint join (sep : string) (parts : list string) : string :=
  match parts with
  | [] => ""
  | [p] => p
  | p :: rest => p +:+ sep +:+ join sep rest
  end.

(** [xs[start:]] for a Python integer [start]: a negative start counts
    from the end, and both ends are clamped to the list. *)
Definition slice_from {A} (start : Z) (xs : list A) : list A :=
  let len := Z.of_nat (length xs) in
  let i := if start <? 0 then Z.max (len + start) 0 else Z.min start len in
  drop (Z.to_nat i) xs.

(** ** Exceptions *)

Inductive outcome (A : Type) : Type :=
| Ok (a : A)
| Raise (msg : string).
Arguments Ok {A} a.
Arguments Raise {A} msg.

(** [xs[i]] for a Python integer [i]. *)
Definition getitem_list {A} (xs : list A) (i : Z) : outcome A :=
  let len := Z.of_nat (length xs) in
  let j := if i <? 0 then len + i else i in
  if (j <? 0) || (len <=? j) then Raise "list index out of range"
  else match xs !! Z.to_nat j with
       | Some x => Ok x
       | None => Raise "list index out of range"
       end.

(** [d[k]] for a dict with string values. *)
Definition getitem_dict (d : gmap string string) (k : string) : outcome string :=
  match d !! k with
  | Some v => Ok v
  | None => Raise ("'" +:+ k +:+ "'")
  end.

(** ** JSON values and the Python runtime *)

(** What [request.json] holds.  Of a float only its being zero is kept,
    which is all the handlers ask of it. *)
#[warnings="-register-all"]
Inductive Json : Type :=
| JNull
| JBool (b : bool)
| JInt (n : Z)
| JFloat (zero : bool)
| JStr (s : string)
| JArr (items : list Json)
| JObj (fields : gmap string Json).

(** A text is a JSON value. *)
Coercion JStr : string >-> Json.

(** [bool(v)]: what [not v] negates. *)
Definition truthy (v : Json) : bool :=
  match v with
  | JNull => false
  | JBool b => b
  | JInt n => negb (n =? 0)
  | JFloat zero => negb zero
  | JStr s => negb (String.eqb s "")
  | JArr items => match items with [] => false | _ :: _ => true end
  | JObj fields => negb (Nat.eqb (size fields) 0)
  end.

(** [type(v).__name__] *)
Definition type_name (v : Json) : string :=
  match v with
  | JNull => "NoneType"
  | JBool _ => "bool"
  | JInt _ => "int"
  | JFloat _ => "float"
  | JStr _ => "str"
  | JArr _ => "list"
  | JObj _ => "dict"
  end.

(** The message of the [AttributeError] raised by [v.name]. *)
Definition no_attribute (v : Json) (name : string) : string :=
  "'" +:+ type_name v +:+ "' object has no attribute '" +:+ name +:+ "'".

(** [data.get(key)]: the value under the key of a dict, [None] if there
    is none; anything but a dict has no [get]. *)
Definition json_get (data : Json) (key : string) : outcome Json :=
  match data with
  | JObj fields => Ok (default JNull (fields !! key))
  | _ => Raise (no_attribute data "get")
  end.

(** The string methods and the formatting that the code takes from the
    Python runtime.  [lower] is [str.lower()], [split] is [str.split()]
    and [format_value v] is the text of [v] inside an f-string.  On ASCII
    text every runtime lower-cases 'A'..'Z' and splits at the ASCII white
    space; lower-casing turns no character into white space and no white
    space into anything else, so it keeps the number of words; a text is
    formatted as itself. *)
Class Python : Type := {
  lower : string -> string;
  split : string -> list string;
  format_value : Json -> string;
  lower_ascii : forall s, is_ascii s = true -> lower s = ascii_lower s;
  split_ascii : forall s, is_ascii s = true -> split s = ascii_split s;
  split_lower_length : forall s, length (split (lower s)) = length (split s);
  format_value_str : forall s : string, format_value (JStr s) = s
}.

(** ** Messages, logs and replies *)

Inductive Message : Type :=
| HumanMessage (content : string)
| AIMessage (content : string).

Definition content (msg : Message) : string :=
  match msg with
  | HumanMessage c => c
  | AIMessage c => c
  end.

Definition is_human (msg : Message) : bool :=
  match msg with
  | HumanMessage _ => true
  | AIMessage _ => false
  end.

(** [ChatMessageHistory]: the ordered list of messages, oldest first. *)
Record ChatMessageHistory : Type := { messages : list Message }.

Definition add_user_message (text : string) (h : ChatMessageHistory) : ChatMessageHistory :=
  {| messages := messages h ++ [HumanMessage text] |}.

Definition add_ai_message (text : string) (h : ChatMessageHistory) : ChatMessageHistory :=
  {| messages := messages h ++ [AIMessage text] |}.

Definition clear (h : ChatMessageHistory) : ChatMessageHistory :=
  {| messages := [] |}.

Record ThirukkuralResponse : Type := {
  tk_verse : string;
  tk_translation : string;
  tk_section : string;
  tk_explanation : string;
  tk_story : string
}.

Record BhagavadGitaResponse : Type := {
  bg_verse : string;
  bg_translation : string;
  bg_chapter : string;
  bg_explanation : string;
  bg_story : string
}.

(** [parsed_response.dict()] *)
Definition thirukkural_dict (r : ThirukkuralResponse) : gmap string string :=
  {[ "verse" := tk_verse r; "translation" := tk_translation r;
     "section" := tk_section r; "explanation" := tk_explanation r;
     "story" := tk_story r ]}.

Definition gita_dict (r : BhagavadGitaResponse) : gmap string string :=
  {[ "verse" := bg_verse r; "translation" := bg_translation r;
     "chapter" := bg_chapter r; "explanation" := bg_explanation r;
     "story" := bg_story r ]}.

(** The values a reply dict holds: text, a flag, the list of locale
    codes, and the per-locale translations. *)
Inductive Value : Type :=
| VStr (s : string)
| VBool (b : bool)
| VList (l : list string)
| VDict (d : gmap string (gmap string string)).

(** What a handler returns: [jsonify(body), status]. *)
Record HttpReply : Type := { status : Z; body : gmap string Value }.

Definition jsonify (d : gmap string Value) : HttpReply :=
  {| status := 200; body := d |}.

(** ** The outside world *)

(** One call that leaves the process. *)
Inductive Event : Type :=
| EvInvoke (prompt : string)
| EvPost (url : string) (headers : list (string * string)) (text : Json)
| EvLog (msg : string).

(** The answer to [requests.post]; [response_text] is [response.text]
    and [json_text] stands for
    [response.json()[0]["translations"][0]["text"]], which can raise. *)
Record HttpResponse : Type := {
  status_code : Z;
  response_text : string;
  json_text : outcome string
}.

(** The collaborators that are not part of the repository: the two
    pydantic parsers with their format instructions, the language model,
    the process environment and the HTTP client.  The model and the HTTP
    client see the trace of the calls made before. *)
Class Backend : Type := {
  thirukkural_format_instructions : string;
  gita_format_instructions : string;
  thirukkural_parse : string -> outcome ThirukkuralResponse;
  gita_parse : string -> outcome BhagavadGitaResponse;
  genai_invoke : list Event -> string -> outcome string;
  getenv : string -> option string;
  requests_post :
    list Event -> string -> list (string * string) -> Json -> outcome HttpResponse
}.

(** ** State and the monad of handlers *)

Record State : Type := {
  thirukkural_history : ChatMessageHistory;
  bhagavad_gita_history : ChatMessageHistory;
  trace : list Event
}.

Definition M (A : Type) : Type := State -> outcome A * State.

Definition ret {A} (a : A) : M A := fun s => (Ok a, s).

Definition bind {A B} (c : M A) (k : A -> M B) : M B :=
  fun s =>
    match c s with
    | (Ok a, s') => k a s'
    | (Raise e, s') => (Raise e, s')
    end.

Notation "'let*' x ':=' c 'in' k" := (bind c (fun x => k))
  (at level 10, x pattern, c at level 100, k at level 200).

Definition raise {A} (msg : string) : M A := fun s => (Raise msg, s).

Definition lift {A} (o : outcome A) : M A := fun s => (o, s).

(** [try: c  except Exception as e: handler(e)]; what [c] did to the
    state before it raised stays done. *)
Definition try_catch {A} (c : M A) (handler : string -> M A) : M A :=
  fun s =>
    match c s with
    | (Ok a, s') => (Ok a, s')
    | (Raise e, s') => handler e s'
    end.

Definition get_state : M State := fun s => (Ok s, s).

Definition emit (ev : Event) (s : State) : State :=
  {| thirukkural_history := thirukkural_history s;
     bhagavad_gita_history := bhagavad_gita_history s;
     trace := trace s ++ [ev] |}.

Definition update_thirukkural (f : ChatMessageHistory -> ChatMessageHistory) : M unit :=
  fun s =>
    (Ok tt, {| thirukkural_history := f (thirukkural_history s);
               bhagavad_gita_history := bhagavad_gita_history s;
               trace := trace s |}).

Definition update_gita (f : ChatMessageHistory -> ChatMessageHistory) : M unit :=
  fun s =>
    (Ok tt, {| thirukkural_history := thirukkural_history s;
               bhagavad_gita_history := f (bhagavad_gita_history s);
               trace := trace s |}).

(** [logging.error(msg)] *)
Definition logging_error (msg : string) : M unit :=
  fun s => (Ok tt, emit (EvLog msg) s).

(** ** The pure functions of [app.py] *)

Definition role_name (msg : Message) : string :=
  if is_human msg then "User" else "Assistant".

(** The first line of [format_chat_history]:
    [history.messages[-max_messages:]]. *)
Definition recent_messages (history : ChatMessageHistory) (max_messages : Z)
  : list Message :=
  slice_from (- max_messages) (messages history).

Definition format_message (msg : Message) : string :=
  role_name msg +:+ ": " +:+ content msg.

(** [format_chat_history(history, max_messages)] *)
Definition format_chat_history (history : ChatMessageHistory) (max_messages : Z) : string :=
  let messages := recent_messages history max_messages in
  join nl (map format_message messages).

Definition thirukkural_keywords : list string :=
  ["thirukkural"; "kural"; "tamil"; "aram"; "porul"; "inbam"].

Definition gita_keywords : list string :=
  ["bhagavad gita"; "gita"; "krishna"; "arjuna"; "yoga"; "dharma"].

Definition follow_up_keywords : list string :=
  ["thirukkural"; "kural"; "bhagavad gita"; "gita"; "similar"; "same"].

Section Routing.
Context {P : Python}.

(** [determine_text_type(query)] *)
Definition determine_text_type (query : string) : string :=
  let query_lower := lower query in
  if any_keyword_in thirukkural_keywords query_lower then "thirukkural"
  else if any_keyword_in gita_keywords query_lower then "bhagavad_gita"
  else "thirukkural".

(** [is_follow_up_query(query)] *)
Definition is_follow_up_query (query : string) : bool :=
  let query_lower := lower query in
  (length (split query_lower) <=? 5)%nat &&
  any_keyword_in follow_up_keywords query_lower.

End Routing.

(** The two prompt templates, cut at their three placeholders
    [{query}], [{chat_history}] and [{format_instructions}]. *)
Definition thirukkural_template_intro : string :=
  nl +:+ "You are a Thirukkural expert. Find the most relevant Thirukkural based on the user's query and the conversation context." +:+ nl
  +:+ nl +:+ "The user is asking about: ".

Definition template_context : string :=
  nl +:+ nl +:+ "Previous conversation context: " +:+ nl.

Definition thirukkural_template_instructions : string :=
  nl +:+ nl +:+ "IMPORTANT INSTRUCTIONS:" +:+ nl
  +:+ "1. Based on the query and previous conversation, find a Thirukkural that best matches the user's intent." +:+ nl
  +:+ "2. If the user's query seems to build on previous questions, provide a Thirukkural that relates to both the current query AND previous conversation." +:+ nl
  +:+ "3. If the user asks for " +:+ dq +:+ "another one" +:+ dq +:+ " or " +:+ dq +:+ "similar" +:+ dq
  +:+ " or uses other referential language, understand they want a different Thirukkural on the same topic discussed previously." +:+ nl
  +:+ "4. Create a short engaging story (200-300 words) that illustrates the moral or lesson of this Thirukkural in a modern context." +:+ nl
  +:+ nl +:+ "Return your response in the following JSON format:" +:+ nl.

Definition bhagavad_gita_template_intro : string :=
  nl +:+ "You are a Bhagavad Gita expert. Find the most relevant verse from the Bhagavad Gita based on the user's query and the conversation context." +:+ nl
  +:+ nl +:+ "The user is asking about: ".

Definition bhagavad_gita_template_instructions : string :=
  nl +:+ nl +:+ "IMPORTANT INSTRUCTIONS:" +:+ nl
  +:+ "1. Based on the query and previous conversation, find a verse from the Bhagavad Gita that best matches the user's intent." +:+ nl
  +:+ "2. If the user's query seems to build on previous questions, provide a verse that relates to both the current query AND previous conversation." +:+ nl
  +:+ "3. If the user asks for " +:+ dq +:+ "another one" +:+ dq +:+ " or " +:+ dq +:+ "similar" +:+ dq
  +:+ " or uses other referential language, understand they want a different verse on the same topic discussed previously." +:+ nl
  +:+ "4. Create a short engaging story (200-300 words) that illustrates the message or lesson of this verse in a modern context." +:+ nl
  +:+ nl +:+ "Return your response in the following JSON format:" +:+ nl.

(** The ten locale codes, written out at every use in the source. *)
Definition languages : list string :=
  ["ta"; "hi"; "ml"; "te"; "bn"; "gu"; "kn"; "mr"; "pa"; "ur"].

Definition greetings : list string :=
  ["hi"; "hello"; "hey"; "hi there"; "hello there"].

(** The entry of a locale whose translation raised. *)
Definition translation_failed : gmap string string :=
  {[ "translation" := "Translation failed.";
     "explanation" := "Translation failed.";
     "story" := "Translation failed." ]}.

(** The reply of [generate_response] when its [try] block raised [e]. *)
Definition error_response (e : string) : gmap string Value :=
  {[ "verse" := VStr "Error";
     "translation" := VStr "Error";
     "section" := VStr "Error";
     "explanation" := VStr ("An error occurred: " +:+ e);
     "story" := VStr "Unable to generate a story at this time.";
     "translations" := VDict ∅ ]}.

Definition greeting_response : gmap string Value :=
  {[ "verse" := VStr "Greeting";
     "translation" := VStr "Hello! I'm a sacred text chatbot. How can I assist you today?";
     "section" := VStr "Greeting";
     "explanation" := VStr "This is a friendly greeting to start the conversation.";
     "story" := VStr "No story here, just a warm welcome!";
     "languages" := VList languages;
     "ready_for_translation" := VBool true ]}.

(** [not x] for the result of [os.getenv(name)]. *)
Definition falsy (x : option string) : bool :=
  match x with
  | None => true
  | Some s => String.eqb s ""
  end.

(** ** The functions that reach the outside world *)

Section Handlers.
Context {P : Python} `{Backend}.

(** [thirukkural_prompt.format(query=..., chat_history=...)] *)
Definition thirukkural_prompt_format (query chat_history : string) : string :=
  thirukkural_template_intro +:+ query +:+ template_context +:+ chat_history
  +:+ thirukkural_template_instructions +:+ thirukkural_format_instructions +:+ nl.

Definition bhagavad_gita_prompt_format (query chat_history : string) : string :=
  bhagavad_gita_template_intro +:+ query +:+ template_context +:+ chat_history
  +:+ bhagavad_gita_template_instructions +:+ gita_format_instructions +:+ nl.

(** [genai_client.invoke(prompt).content] *)
Definition invoke (prompt : string) : M string :=
  fun s => (genai_invoke (trace s) prompt, emit (EvInvoke prompt) s).

(** [requests.post(url, headers=headers, json=[{"text": text}])] *)
Definition post (url : string) (headers : list (string * string)) (text : Json)
  : M HttpResponse :=
  fun s => (requests_post (trace s) url headers text, emit (EvPost url headers text) s).

(** [translate_text(text, target_language)]; the two arguments are texts
    when [generate_response] calls it, and whatever the request holds
    when [handle_translation] does. *)
Definition translate_text (text target_language : Json) : M string :=
  let translator_key := getenv "AZURE_TRANSLATOR_KEY" in
  let translator_endpoint := getenv "AZURE_TRANSLATOR_ENDPOINT" in
  if falsy translator_key || falsy translator_endpoint then
    raise "Azure Translator API key or endpoint is not set in the environment variables."
  else
    let url := default "" translator_endpoint +:+ "/translate?api-version=3.0&to="
               +:+ format_value target_language in
    let headers :=
      [("Ocp-Apim-Subscription-Key", default "" translator_key);
       ("Ocp-Apim-Subscription-Region", "centralindia");
       ("Content-Type", "application/json")] in
    let* response := post url headers text in
    if negb (status_code response =? 200) then
      raise ("Azure Translator API error: " +:+ pretty (status_code response)
             +:+ " - " +:+ response_text response)
    else
      lift (json_text response).

(** The body of the [for lang in [...]] loop of [generate_response]. *)
Definition translate_into (generated_response : gmap string string)
    (translations : gmap string (gmap string string)) (lang : string)
  : M (gmap string (gmap string string)) :=
  try_catch
    (let* a := lift (getitem_dict generated_response "translation") in
     let* translation := translate_text a lang in
     let* b := lift (getitem_dict generated_response "explanation") in
     let* explanation := translate_text b lang in
     let* c := lift (getitem_dict generated_response "story") in
     let* story := translate_text c lang in
     ret (<[lang := {[ "translation" := translation;
                       "explanation" := explanation;
                       "story" := story ]}]> translations))
    (fun e =>
     let* _ := logging_error ("Error translating to " +:+ lang +:+ ": " +:+ e) in
     ret (<[lang := translation_failed]> translations)).

(** The loop itself, over the locale codes still to do. *)
Fixpoint translate_loop (generated_response : gmap string string)
    (langs : list string) (translations : gmap string (gmap string string))
  : M (gmap string (gmap string string)) :=
  match langs with
  | [] => ret translations
  | lang :: rest =>
      let* translations := translate_into generated_response translations lang in
      translate_loop generated_response rest translations
  end.

(** The [try] block of [generate_response]. *)
Definition generate_response_try (query text_type : string) : M (gmap string Value) :=
  let* generated_response :=
    if String.eqb text_type "thirukkural" then
      let* s := get_state in
      let chat_history := format_chat_history (thirukkural_history s) 10 in
      let formatted_prompt := thirukkural_prompt_format query chat_history in
      let* response := invoke formatted_prompt in
      let* parsed_response := lift (thirukkural_parse response) in
      let result_summary :=
        "Thirukkural about " +:+ lower (tk_section parsed_response)
        +:+ " - Translation: " +:+ tk_translation parsed_response in
      let* _ := update_thirukkural (add_user_message query) in
      let* _ := update_thirukkural (add_ai_message result_summary) in
      ret (thirukkural_dict parsed_response)
    else
      let* s := get_state in
      let chat_history := format_chat_history (bhagavad_gita_history s) 10 in
      let formatted_prompt := bhagavad_gita_prompt_format query chat_history in
      let* response := invoke formatted_prompt in
      let* parsed_response := lift (gita_parse response) in
      let result_summary :=
        "Bhagavad Gita " +:+ bg_chapter parsed_response
        +:+ " - Translation: " +:+ bg_translation parsed_response in
      let* _ := update_gita (add_user_message query) in
      let* _ := update_gita (add_ai_message result_summary) in
      ret (gita_dict parsed_response) in
  let* translations := translate_loop generated_response languages ∅ in
  ret (<["translations" := VDict translations]> (VStr <$> generated_response)).

(** [generate_response(query, text_type)] *)
Definition generate_response (query text_type : string) : M (gmap string Value) :=
  try_catch (generate_response_try query text_type)
    (fun e =>
     let* _ := logging_error ("Error generating response: " +:+ e) in
     ret (error_response e)).

(** The follow-up branch of [handle_query]: the new [text_type] and the
    rewritten query. *)
Definition follow_up_rewrite (query : string) : M (string * string) :=
  let* s := get_state in
  let* (text_type, last_query) :=
    if contains "thirukkural" (lower query) || contains "kural" (lower query) then
      let msgs := messages (bhagavad_gita_history s) in
      let* last_query :=
        if (2 <=? length msgs)%nat
        then (let* m := lift (getitem_list msgs (-2)) in ret (content m))
        else ret "" in
      ret ("thirukkural", last_query)
    else
      let msgs := messages (thirukkural_history s) in
      let* last_query :=
        if (2 <=? length msgs)%nat
        then (let* m := lift (getitem_list msgs (-2)) in ret (content m))
        else ret "" in
      ret ("bhagavad_gita", last_query) in
  ret (text_type,
       last_query +:+ " (in " +:+ title (replace_char "_" " " text_type) +:+ ")").

(** The last lines of [handle_query]: generate, add the translation
    options, serialise. *)
Definition respond (query text_type : string) : M HttpReply :=
  let* response := generate_response query text_type in
  let response := <["languages" := VList languages]> response in
  let response := <["ready_for_translation" := VBool true]> response in
  ret (jsonify response).

(** [handle_query()]; [request_json] is what [request.json] gives.  An
    exception that leaves the handler is for the framework to answer. *)
Definition handle_query (request_json : outcome Json) : M HttpReply :=
  let* data := lift request_json in
  let* query := lift (json_get data "query") in
  if negb (truthy query) then
    ret {| status := 400; body := {[ "error" := VStr "Query is required" ]} |}
  else
    match query with
    | JStr query =>
        if in_list (lower query) greetings then
          ret (jsonify greeting_response)
        else
          let text_type := determine_text_type query in
          let* (text_type, query) :=
            if is_follow_up_query query then follow_up_rewrite query
            else ret (text_type, query) in
          respond query text_type
    | _ => raise (no_attribute query "lower")
    end.

(** [handle_translation()] *)
Definition handle_translation (request_json : outcome Json) : M HttpReply :=
  let* data := lift request_json in
  let* text := lift (json_get data "text") in
  let* explanation := lift (json_get data "explanation") in
  let* story := lift (json_get data "story") in
  let* target_language := lift (json_get data "language") in
  if negb (truthy text) || negb (truthy explanation) || negb (truthy story)
     || negb (truthy target_language) then
    ret {| status := 400;
           body := {[ "error" :=
             VStr "Text, explanation, story, and target language are required" ]} |}
  else
    try_catch
      (let* translated_text := translate_text text target_language in
       let* translated_explanation := translate_text explanation target_language in
       let* translated_story := translate_text story target_language in
       ret (jsonify {[ "translated_text" := VStr translated_text;
                       "translated_explanation" := VStr translated_explanation;
                       "translated_story" := VStr translated_story;
                       "languages" := VList languages;
                       "ready_for_translation" := VBool true ]}))
      (fun e =>
       let* _ := logging_error ("Error during translation: " +:+ e) in
       ret {| status := 500; body := {[ "error" := VStr e ]} |}).

(** [clear_history()] *)
Definition clear_history : M HttpReply :=
  let* _ := update_thirukkural clear in
  let* _ := update_gita clear in
  ret (jsonify {[ "message" := VStr "Conversation history cleared!" ]}).

End Handlers.

(** ** A concrete runtime and outside world, for running the handlers

    The runtime knows ASCII letters and ASCII white space only, which is
    enough for the laws of [Python] and for running the handlers on ASCII
    text.  It prints a text, [None], a boolean and an integer as Python
    does, and any other value as three dots.

    The model answers every prompt with the same text unless the prompt
    mentions "outage"; the parsers reject the reply "garbage"; the
    translation service is configured, wraps the text it is given in
    brackets, and answers 500 for the locale "ur". *)

Lemma ascii_isspace_lower_char (c : ascii) : ascii_isspace (lower_char c) = ascii_isspace c.
Proof. by destruct c as [[] [] [] [] [] [] [] []]. Qed.

Lemma ascii_lower_snoc (w : string) (c : ascii) :
  ascii_lower (w +:+ String c "") = ascii_lower w +:+ String (lower_char c) "".
Proof. induction w as [|a w IH]; simpl; [done | by rewrite IH]. Qed.

Lemma ascii_lower_eqb_empty (w : string) :
  String.eqb (ascii_lower w) "" = String.eqb w "".
Proof. by destruct w. Qed.

Lemma split_go_lower (w s : string) :
  split_go (ascii_lower w) (ascii_lower s) = map ascii_lower (split_go w s).
Proof.
  revert w. induction s as [|c s IH]; intros w; simpl.
  - rewrite ascii_lower_eqb_empty. by destruct (String.eqb w "").
  - rewrite ascii_isspace_lower_char, ascii_lower_eqb_empty.
    destruct (ascii_isspace c).
    + destruct (String.eqb w ""); simpl; by rewrite <- (IH "").
    + by rewrite <- IH, ascii_lower_snoc.
Qed.

(** Lower-casing an ASCII text lower-cases its words one by one, so it
    keeps their number. *)
Lemma ascii_split_lower (s : string) :
  ascii_split (ascii_lower s) = map ascii_lower (ascii_split s).
Proof. apply (split_go_lower "" s). Qed.

Lemma ascii_word_count_lower (s : string) :
  length (ascii_split (ascii_lower s)) = length (ascii_split s).
Proof. by rewrite ascii_split_lower, length_map. Qed.

Definition ascii_format_value (v : Json) : string :=
  match v with
  | JStr s => s
  | JNull => "None"
  | JBool true => "True"
  | JBool false => "False"
  | JInt n => pretty n
  | _ => "..."
  end.

Definition ascii_python : Python :=
  {| lower := ascii_lower;
     split := ascii_split;
     format_value := ascii_format_value;
     lower_ascii := fun s _ => eq_refl;
     split_ascii := fun s _ => eq_refl;
     split_lower_length := ascii_word_count_lower;
     format_value_str := fun s => eq_refl |}.

(** The text the demo translation service answers with. *)
Definition demo_translation (text : Json) : string :=
  "[" +:+ ascii_format_value text +:+ "]".

Definition demo_thirukkural : ThirukkuralResponse :=
  {| tk_verse := "V"; tk_translation := "T"; tk_section := "Aram";
     tk_explanation := "E"; tk_story := "S" |}.

Definition demo_gita : BhagavadGitaResponse :=
  {| bg_verse := "V"; bg_translation := "T"; bg_chapter := "2.47";
     bg_explanation := "E"; bg_story := "S" |}.

Definition demo_backend : Backend :=
  {| thirukkural_format_instructions := "FORMAT";
     gita_format_instructions := "FORMAT";
     thirukkural_parse content :=
       if String.eqb content "garbage" then Raise "Invalid json output: garbage"
       else Ok demo_thirukkural;
     gita_parse content :=
       if String.eqb content "garbage" then Raise "Invalid json output: garbage"
       else Ok demo_gita;
     genai_invoke tr prompt :=
       if contains "outage" prompt then Raise "503 model unavailable"
       else if contains "nonsense" prompt then Ok "garbage"
       else Ok "reply";
     getenv name :=
       if String.eqb name "AZURE_TRANSLATOR_KEY" then Some "key"
       else if String.eqb name "AZURE_TRANSLATOR_ENDPOINT" then Some "http://mt"
       else None;
     requests_post tr url headers text :=
       if contains "&to=ur" url
       then Ok {| status_code := 500; response_text := "down"; json_text := Raise "no json" |}
       else Ok {| status_code := 200; response_text := "";
                  json_text := Ok (demo_translation text) |} |}.

Definition empty_state : State :=
  {| thirukkural_history := {| messages := [] |};
     bhagavad_gita_history := {| messages := [] |};
     trace := [] |}.

Definition talked_state : State :=
  {| thirukkural_history :=
       {| messages := [HumanMessage "patience"; AIMessage "Thirukkural about aram - Translation: T"] |};
     bhagavad_gita_history :=
       {| messages := [HumanMessage "duty"; AIMessage "Bhagavad Gita 2.47 - Translation: T"] |};
     trace := [] |}.

(** The same world with no translator key in the environment. *)
Definition demo_backend_unconfigured : Backend :=
  {| thirukkural_format_instructions := "FORMAT";
     gita_format_instructions := "FORMAT";
     thirukkural_parse := @thirukkural_parse demo_backend;
     gita_parse := @gita_parse demo_backend;
     genai_invoke := @genai_invoke demo_backend;
     getenv name :=
       if String.eqb name "AZURE_TRANSLATOR_ENDPOINT" then Some "http://mt" else None;
     requests_post := @requests_post demo_backend |}.

(** The same world with a translation service that answers for every
    locale. *)
Definition demo_backend_up : Backend :=
  {| thirukkural_format_instructions := "FORMAT";
     gita_format_instructions := "FORMAT";
     thirukkural_parse := @thirukkural_parse demo_backend;
     gita_parse := @gita_parse demo_backend;
     genai_invoke := @genai_invoke demo_backend;
     getenv := @getenv demo_backend;
     requests_post tr url headers text :=
       Ok {| status_code := 200; response_text := "";
             json_text := Ok (demo_translation text) |} |}.

(** A log of twelve messages, and the state that holds only its last ten. *)
Definition long_log : list Message :=
  [HumanMessage "q1"; AIMessage "a1"; HumanMessage "q2"; AIMessage "a2";
   HumanMessage "q3"; AIMessage "a3"; HumanMessage "q4"; AIMessage "a4";
   HumanMessage "q5"; AIMessage "a5"; HumanMessage "q6"; AIMessage "a6"].

Definition long_state : State :=
  {| thirukkural_history := {| messages := long_log |};
     bhagavad_gita_history := {| messages := [] |};
     trace := [] |}.

(** Request bodies: a follow-up, a greeting, a plain question, and a
    translation request without explanation and story. *)
Definition kural_request : gmap string Json := {[ "query" := JStr "another kural" ]}.

Definition greeting_request : gmap string Json := {[ "query" := JStr "Hi" ]}.

Definition dharma_request : gmap string Json :=
  {[ "query" := JStr "What is dharma in daily life today" ]}.

Definition incomplete_translation_request : gmap string Json :=
  {[ "text" := JStr "peace"; "language" := JStr "ta" ]}.

(** A complete translation request. *)
Definition demo_translation_request : gmap string Json :=
  {[ "text" := JStr "peace"; "explanation" := JStr "calm"; "story" := JStr "once";
     "language" := JStr "ta" ]}.

(** ** What the claims speak of *)

(** [kw] occurs in [s]: some text, then [kw], then some text. *)
Definition occurs_in (kw s : string) : Prop :=
  exists before after, s = before +:+ kw +:+ after.

(** Some keyword of the list occurs in [s]. *)
Definition mentions (keywords : list string) (s : string) : Prop :=
  exists kw, kw ∈ keywords /\ occurs_in kw s.

(** The text of the message before the last one of a log, and the empty
    text for a log of fewer than two messages. *)
Definition second_to_last_content (history : ChatMessageHistory) : string :=
  match rev (messages history) with
  | _ :: msg :: _ => content msg
  | _ => ""
  end.

(** Two states hold the same logs. *)
Definition same_logs (s s' : State) : Prop :=
  thirukkural_history s' = thirukkural_history s /\
  bhagavad_gita_history s' = bhagavad_gita_history s.

(** A generated reply has the three fields the relay translates. *)
Definition has_fields (d : gmap string string) : Prop :=
  exists a b c,
    d !! "translation" = Some a /\ d !! "explanation" = Some b /\
    d !! "story" = Some c.

Section Runs.
Context {P : Python} `{Backend}.

(** The prompt sent to the model for a query of a domain. *)
Definition prompt_for (query text_type : string) (s : State) : string :=
  if String.eqb text_type "thirukkural"
  then thirukkural_prompt_format query
         (format_chat_history (thirukkural_history s) 10)
  else bhagavad_gita_prompt_format query
         (format_chat_history (bhagavad_gita_history s) 10).

(** The message with which the parser of the domain rejects a reply. *)
Definition parse_error (text_type content : string) : option string :=
  if String.eqb text_type "thirukkural"
  then match thirukkural_parse content with Raise e => Some e | Ok _ => None end
  else match gita_parse content with Raise e => Some e | Ok _ => None end.

(** The generation fails with [e]: the model raises [e], or it answers
    and the parser raises [e]. *)
Inductive generation_fails (query text_type : string) (s : State) (e : string)
  : Prop :=
| llm_raises :
    genai_invoke (trace s) (prompt_for query text_type s) = Raise e ->
    generation_fails query text_type s e
| parse_raises (content : string) :
    genai_invoke (trace s) (prompt_for query text_type s) = Ok content ->
    parse_error text_type content = Some e ->
    generation_fails query text_type s e.

(** The generation succeeds: the model answers and the parser of the
    domain accepts the answer. *)
Definition thirukkural_generated (query text_type : string) (s : State)
    (parsed : ThirukkuralResponse) : Prop :=
  text_type = "thirukkural" /\
  exists content,
    genai_invoke (trace s) (prompt_for query text_type s) = Ok content /\
    thirukkural_parse content = Ok parsed.

Definition gita_generated (query text_type : string) (s : State)
    (parsed : BhagavadGitaResponse) : Prop :=
  text_type <> "thirukkural" /\
  exists content,
    genai_invoke (trace s) (prompt_for query text_type s) = Ok content /\
    gita_parse content = Ok parsed.

Definition generated (query text_type : string) (s : State)
    (d : gmap string string) : Prop :=
  (exists parsed, thirukkural_generated query text_type s parsed /\
                  d = thirukkural_dict parsed) \/
  (exists parsed, gita_generated query text_type s parsed /\
                  d = gita_dict parsed).

(** The translation service fails, or answers, for a locale whatever
    the text and the moment. *)
Definition always_fails (lang : string) : Prop :=
  forall (text0 : string) s, exists e s', translate_text text0 lang s = (Raise e, s').

Definition always_translates (lang : string) : Prop :=
  forall (text0 : string) s, exists t s', translate_text text0 lang s = (Ok t, s').

(** How the entry of a locale comes about.  Either the three fields
    were translated in turn, and the entry holds the three answers of
    the service. *)
Definition translated_entry (d : gmap string string) (lang : string)
    (entry : gmap string string) : Prop :=
  exists (s0 s1 s2 s3 : State) (a b c t e st : string),
    d !! "translation" = Some a /\
    d !! "explanation" = Some b /\
    d !! "story" = Some c /\
    translate_text a lang s0 = (Ok t, s1) /\
    translate_text b lang s1 = (Ok e, s2) /\
    translate_text c lang s2 = (Ok st, s3) /\
    entry = {[ "translation" := t; "explanation" := e; "story" := st ]}.

(** Or a call for that locale raised, and the entry is the fixed one. *)
Definition failed_entry (lang : string) (entry : gmap string string) : Prop :=
  entry = translation_failed /\
  exists (s0 s1 : State) (text0 err : string),
    translate_text text0 lang s0 = (Raise err, s1).

Definition locale_result (d : gmap string string) (lang : string)
    (entry : gmap string string) : Prop :=
  translated_entry d lang entry \/ failed_entry lang entry.

End Runs.

(** ** Traces and well-formed logs *)

Definition is_post (ev : Event) : bool :=
  match ev with
  | EvPost _ _ _ => true
  | _ => false
  end.

Definition is_invoke (ev : Event) : bool :=
  match ev with
  | EvInvoke _ => true
  | _ => false
  end.

(** The number of HTTP posts among some events. *)
Definition count_posts (evs : list Event) : nat :=
  length (List.filter is_post evs).

(** A log made of exchanges: a user turn, then the assistant turn that
    answers it. *)
Inductive paired : list Message -> Prop :=
| paired_nil : paired []
| paired_turn (older : list Message) (q a : string) :
    paired older -> paired (older ++ [HumanMessage q; AIMessage a]).

Definition paired_logs (s : State) : Prop :=
  paired (messages (thirukkural_history s)) /\
  paired (messages (bhagavad_gita_history s)).

(** The text of the most recent user turn of a log, and the empty text
    for a log without user turns. *)
Definition last_user_query (history : ChatMessageHistory) : string :=
  match last (List.filter is_human (messages history)) with
  | Some msg => content msg
  | None => ""
  end.

(** A state is the same as another but for messages added to the logs
    and events added to the trace. *)
Definition grown_from (s s' : State) : Prop :=
  (exists added, messages (thirukkural_history s')
                 = messages (thirukkural_history s) ++ added) /\
  (exists added, messages (bhagavad_gita_history s')
                 = messages (bhagavad_gita_history s) ++ added) /\
  (exists evs, trace s' = trace s ++ evs).

Section Translator.
Context {P : Python} `{Backend}.

(** Both translator variables are set and not empty. *)
Definition configured : bool :=
  negb (falsy (getenv "AZURE_TRANSLATOR_KEY")
        || falsy (getenv "AZURE_TRANSLATOR_ENDPOINT")).

(** The address and the headers [translate_text] posts to for a locale. *)
Definition translator_url (lang : string) : string :=
  default "" (getenv "AZURE_TRANSLATOR_ENDPOINT")
  +:+ "/translate?api-version=3.0&to=" +:+ lang.

Definition translator_headers : list (string * string) :=
  [("Ocp-Apim-Subscription-Key", default "" (getenv "AZURE_TRANSLATOR_KEY"));
   ("Ocp-Apim-Subscription-Region", "centralindia");
   ("Content-Type", "application/json")].

(** What the relay adds to a generated reply and to the trace. *)
Definition relayed (d : gmap string string) (s1 : State)
    (r : gmap string Value) (s' : State) (evs : list Event) : Prop :=
  exists translations,
    r = <["translations" := VDict translations]> (VStr <$> d) /\
    same_logs s1 s' /\
    trace s' = trace s1 ++ evs /\
    Forall (fun ev => is_invoke ev = false) evs /\
    (count_posts evs <= 30)%nat /\
    (forall lang, is_Some (translations !! lang) <-> lang ∈ languages) /\
    (configured = false ->
     count_posts evs = O /\
     forall lang, lang ∈ languages -> translations !! lang = Some translation_failed) /\
    ((forall lang, lang ∈ languages -> always_translates lang) ->
     count_posts evs = 30%nat).

(** Where [handle_query] sends a query that is no greeting: the domain
    and the text it generates for. *)
Definition route (query : string) (s : State) : string * string :=
  if is_follow_up_query query then
    if contains "kural" (lower query)
    then ("thirukkural",
          second_to_last_content (bhagavad_gita_history s) +:+ " (in Thirukkural)")
    else ("bhagavad_gita",
          second_to_last_content (thirukkural_history s) +:+ " (in Bhagavad Gita)")
  else (determine_text_type query, query).

End Translator.

(** ** Strings: substring search and tokenising *)

Lemma append_assoc (a b c : string) : (a +:+ b) +:+ c = a +:+ b +:+ c.
Proof.
  induction a as [|x a IH]; [done|].
  change (String x ((a +:+ b) +:+ c) = String x (a +:+ b +:+ c)).
  by rewrite IH.
Qed.

Lemma length_append (a b : string) :
  String.length (a +:+ b) = (String.length a + String.length b)%nat.
Proof.
  induction a as [|x a IH]; [done|].
  change (S (String.length (a +:+ b)) = S (String.length a + String.length b)).
  by rewrite IH.
Qed.

Lemma drop_chars_append (a b : string) : drop_chars (String.length a) (a +:+ b) = b.
Proof. induction a as [|x a IH]; [done | exact IH]. Qed.

(** A text that ends with [b] ends with it at the distance of [b]'s
    length from the end. *)
Lemma append_suffix (a b s : string) :
  a +:+ b = s -> drop_chars (String.length s - String.length b) s = b.
Proof.
  intros <-. rewrite length_append.
  replace (String.length a + String.length b - String.length b)%nat
    with (String.length a) by lia.
  apply drop_chars_append.
Qed.

Lemma startswith_spec (p s : string) :
  startswith p s = true <-> exists after, s = p +:+ after.
Proof.
  revert s. induction p as [|a p IH]; intros s; simpl.
  - split; [intros _; by exists s | done].
  - destruct s as [|b s]; simpl.
    + split; [done | intros [after Heq]; discriminate].
    + rewrite andb_true_iff, Ascii.eqb_eq, IH. split.
      * intros [-> [after ->]]. by exists after.
      * intros [after Heq]. injection Heq as -> ->. eauto.
Qed.

Lemma contains_spec (kw s : string) :
  contains kw s = true <-> occurs_in kw s.
Proof.
  unfold occurs_in. induction s as [|c s IH].
  - simpl. rewrite orb_false_r, startswith_spec. split.
    + intros [after Heq]. by exists "", after.
    + intros [before [after Heq]]. destruct before; [eauto | discriminate].
  - change (contains kw (String c s))
      with (startswith kw (String c s) || contains kw s).
    rewrite orb_true_iff, startswith_spec, IH. split.
    + intros [[after Heq] | [before [after Heq]]].
      * by exists "", after.
      * exists (String c before), after. simpl. by rewrite Heq.
    + intros [before [after Heq]]. destruct before as [|b before].
      * left. by exists after.
      * right. simpl in Heq. injection Heq as _ ->. eauto.
Qed.

Lemma any_keyword_in_spec (keywords : list string) (s : string) :
  any_keyword_in keywords s = true <-> mentions keywords s.
Proof.
  unfold any_keyword_in, mentions. rewrite existsb_exists. split.
  - intros [kw [Hin Hc]]. exists kw.
    by rewrite list_elem_of_In, <- contains_spec.
  - intros [kw [Hin Hc]]. exists kw.
    by rewrite <- list_elem_of_In, contains_spec.
Qed.

Lemma any_keyword_in_false (keywords : list string) (s : string) :
  any_keyword_in keywords s = false <-> ~ mentions keywords s.
Proof.
  rewrite <- any_keyword_in_spec. by destruct (any_keyword_in keywords s).
Qed.

(** ** The runtime on ASCII text *)

Lemma is_ascii_lower_char (c : ascii) :
  (N_of_ascii c <? 128)%N = true -> (N_of_ascii (lower_char c) <? 128)%N = true.
Proof. by destruct c as [[] [] [] [] [] [] [] []]. Qed.

Lemma is_ascii_lower (s : string) : is_ascii s = true -> is_ascii (ascii_lower s) = true.
Proof.
  induction s as [|c s IH]; [done|]. simpl. rewrite !andb_true_iff.
  intros [Hc Hs]. split; [by apply is_ascii_lower_char | by apply IH].
Qed.

Section AsciiText.
Context {P : Python}.

(** On an ASCII query the two routing functions are the ASCII ones. *)
Lemma is_follow_up_query_ascii (query : string) :
  is_ascii query = true ->
  is_follow_up_query query
  = (length (ascii_split (ascii_lower query)) <=? 5)%nat
    && any_keyword_in follow_up_keywords (ascii_lower query).
Proof.
  intros Ha. unfold is_follow_up_query.
  by rewrite (lower_ascii query Ha), (split_ascii _ (is_ascii_lower query Ha)).
Qed.

Lemma determine_text_type_ascii (query : string) :
  is_ascii query = true ->
  determine_text_type query
  = (if any_keyword_in thirukkural_keywords (ascii_lower query) then "thirukkural"
     else if any_keyword_in gita_keywords (ascii_lower query) then "bhagavad_gita"
     else "thirukkural").
Proof. intros Ha. unfold determine_text_type. by rewrite (lower_ascii query Ha). Qed.

End AsciiText.

(** ** The follow-up detector *)

Section Detector.
Context {P : Python}.

(** C2: a query is a follow-up exactly when it has at most five words
    and its lower-cased text mentions one of the six keywords;
    "similar please" is one, the long query about dharma and karma is
    none, and neither is any query of more than five words, whatever
    keywords it holds. *)
Theorem is_follow_up_query_iff :
  (forall query : string,
     is_follow_up_query query = true <->
     (length (split query) <= 5)%nat /\
     mentions ["thirukkural"; "kural"; "bhagavad gita"; "gita"; "similar"; "same"]
       (lower query)) /\
  is_follow_up_query "similar please" = true /\
  is_follow_up_query "tell me about dharma and karma in detail please now" = false /\
  (forall query : string,
     (5 < length (split query))%nat -> is_follow_up_query query = false).
Proof.
  assert (Hiff : forall query : string,
     is_follow_up_query query = true <->
     (length (split query) <= 5)%nat /\ mentions follow_up_keywords (lower query)).
  { intros query. unfold is_follow_up_query.
    rewrite andb_true_iff, Nat.leb_le, split_lower_length, any_keyword_in_spec.
    done. }
  split; [exact Hiff |].
  split; [by rewrite is_follow_up_query_ascii |].
  split; [by rewrite is_follow_up_query_ascii |].
  intros query Hlong. destruct (is_follow_up_query query) eqn:E; [|done].
  apply Hiff in E as [Hshort _]. lia.
Qed.

End Detector.

(** ** The classifier *)

Section Classifier.
Context {P : Python}.

(** C3: the classifier answers "thirukkural" as soon as the lower-cased
    query mentions a Thirukkural keyword, whatever Gita keywords it also
    mentions; "bhagavad_gita" when it mentions a Gita keyword and no
    Thirukkural keyword; "thirukkural" when it mentions neither.  It is a
    total function and its answer is always one of the two domains. *)
Theorem determine_text_type_spec (query : string) :
  let thirukkural := mentions ["thirukkural"; "kural"; "tamil"; "aram"; "porul"; "inbam"]
                       (lower query) in
  let gita := mentions ["bhagavad gita"; "gita"; "krishna"; "arjuna"; "yoga"; "dharma"]
                (lower query) in
  (thirukkural -> determine_text_type query = "thirukkural") /\
  (~ thirukkural -> gita -> determine_text_type query = "bhagavad_gita") /\
  (~ thirukkural -> ~ gita -> determine_text_type query = "thirukkural") /\
  (determine_text_type query = "thirukkural" \/
   determine_text_type query = "bhagavad_gita").
Proof.
  intros thirukkural gita. subst thirukkural gita. unfold determine_text_type.
  fold thirukkural_keywords gita_keywords.
  destruct (any_keyword_in thirukkural_keywords (lower query)) eqn:Et;
    [apply any_keyword_in_spec in Et | apply any_keyword_in_false in Et];
    (destruct (any_keyword_in gita_keywords (lower query)) eqn:Eg;
     [apply any_keyword_in_spec in Eg | apply any_keyword_in_false in Eg]);
    repeat split; intros; try done; auto.
Qed.

End Classifier.

(** ** Conversation memory *)

Lemma slice_from_suffix {A} (start : Z) (xs : list A) :
  exists older, xs = older ++ slice_from start xs.
Proof.
  unfold slice_from. eexists. symmetry. apply take_drop.
Qed.

(** The slice is what remains after dropping the older messages. *)
Lemma recent_messages_suffix (history : ChatMessageHistory) (n : Z) :
  exists older, messages history = older ++ recent_messages history n.
Proof. apply slice_from_suffix. Qed.

(** From one on, [max_messages] bounds the number of turns read. *)
Lemma recent_messages_bounded (history : ChatMessageHistory) (n : Z) :
  1 <= n -> Z.of_nat (length (recent_messages history n)) <= n.
Proof.
  intros Hn. unfold recent_messages, slice_from. rewrite length_drop.
  destruct (Z.ltb_spec (- n) 0); lia.
Qed.

(** And then they are the last [n] turns, or all of them if the log is
    shorter. *)
Lemma recent_messages_last (history : ChatMessageHistory) (n : Z) :
  1 <= n ->
  length (recent_messages history n)
  = Nat.min (Z.to_nat n) (length (messages history)).
Proof.
  intros Hn. unfold recent_messages, slice_from. rewrite length_drop.
  destruct (Z.ltb_spec (- n) 0); lia.
Qed.

Lemma format_message_human (t : string) :
  format_message (HumanMessage t) = "User: " +:+ t.
Proof. reflexivity. Qed.

Lemma format_message_ai (t : string) :
  format_message (AIMessage t) = "Assistant: " +:+ t.
Proof. reflexivity. Qed.

(** Each turn read is formatted on its own line, in the order of the log. *)
Lemma format_chat_history_lines (history : ChatMessageHistory) (n : Z) :
  format_chat_history history n
  = join nl (map format_message (recent_messages history n)).
Proof. reflexivity. Qed.

(** C6: with [max_messages = 0] the slice [messages[-0:]] is the whole
    log, so a log of two turns is read back in full, two turns where at
    most zero were asked for. *)
Theorem format_chat_history_zero_reads_all :
  (forall history : ChatMessageHistory,
     recent_messages history 0 = messages history) /\
  recent_messages {| messages := [HumanMessage "a"; AIMessage "b"] |} 0
  = [HumanMessage "a"; AIMessage "b"] /\
  format_chat_history {| messages := [HumanMessage "a"; AIMessage "b"] |} 0
  = "User: a" +:+ nl +:+ "Assistant: b".
Proof.
  split; [|split; reflexivity].
  intros history. unfold recent_messages, slice_from. simpl.
  destruct (messages history); reflexivity.
Qed.

(** ** The request handler: validation and greetings *)

Section Validation.
Context {P : Python} `{Backend}.

(** C9, as the code has it: a body that is a JSON object without a
    [query] field is answered with status 400 and the body
    [{error: "Query is required"}]; the state is the one the handler
    started in, so no log was touched and nothing outside was called. *)
Theorem handle_query_missing_query (data : gmap string Json) (s : State) :
  data !! "query" = None ->
  handle_query (Ok (JObj data)) s
  = (Ok {| status := 400; body := {[ "error" := VStr "Query is required" ]} |}, s).
Proof.
  intros Hq. unfold handle_query, bind, lift, json_get. by rewrite Hq.
Qed.

(** Past the validation, the handler works on the text of the field. *)
Lemma handle_query_present (data : gmap string Json) (query : string) (s : State) :
  data !! "query" = Some (JStr query) ->
  String.eqb query "" = false ->
  handle_query (Ok (JObj data)) s
  = (if in_list (lower query) greetings then ret (jsonify greeting_response)
     else
       let* (text_type, query) :=
         if is_follow_up_query query then follow_up_rewrite query
         else ret (determine_text_type query, query) in
       respond query text_type) s.
Proof.
  intros Hq Hne. unfold handle_query, json_get, lift. unfold bind at 1 2.
  rewrite Hq. cbn [default from_option id truthy]. by rewrite Hne.
Qed.

(** C8: a query that equals one of the five greetings up to case is
    answered with the fixed greeting payload, whose verse is
    "Greeting"; the state is unchanged, so neither the model nor the
    translation service was called. *)
Theorem handle_query_greeting (data : gmap string Json) (query g : string)
    (s : State) :
  data !! "query" = Some (JStr query) ->
  g ∈ ["hi"; "hello"; "hey"; "hi there"; "hello there"] ->
  lower query = lower g ->
  handle_query (Ok (JObj data)) s = (Ok (jsonify greeting_response), s) /\
  status (jsonify greeting_response) = 200 /\
  greeting_response !! "verse" = Some (VStr "Greeting").
Proof.
  intros Hq Hg Hlow. split; [|split; reflexivity].
  assert (Hg' : lower g = g /\ g <> "").
  { set_unfold in Hg.
    destruct Hg as [->|[->|[->|[->|[->|[]]]]]];
      by rewrite lower_ascii. }
  destruct Hg' as [Hgl Hgne]. rewrite Hgl in Hlow.
  assert (Hgreet : in_list (lower query) greetings = true).
  { rewrite Hlow. set_unfold in Hg.
    destruct Hg as [->|[->|[->|[->|[->|[]]]]]]; reflexivity. }
  assert (Hne : String.eqb query "" = false).
  { apply String.eqb_neq. intros ->.
    rewrite (lower_ascii "" eq_refl) in Hlow. by subst g. }
  rewrite (handle_query_present data query s Hq Hne), Hgreet. reflexivity.
Qed.

End Validation.

(** ** The follow-up rewrite *)

Lemma getitem_list_neg2 {A} (older : list A) (x y : A) :
  getitem_list (older ++ [x; y]) (-2) = Ok x.
Proof.
  unfold getitem_list. rewrite length_app. cbn [length].
  change (-2 <? 0) with true. cbn match.
  destruct (Z.ltb_spec (Z.of_nat (length older + 2) + -2) 0); [lia|].
  destruct (Z.leb_spec (Z.of_nat (length older + 2))
              (Z.of_nat (length older + 2) + -2)); [lia|].
  cbn [orb].
  replace (Z.to_nat (Z.of_nat (length older + 2) + -2)) with (length older) by lia.
  by rewrite list_lookup_middle.
Qed.

Lemma two_last_split {A} (xs : list A) :
  (2 <= length xs)%nat -> exists older x y, xs = older ++ [x; y].
Proof.
  intros Hlen.
  destruct xs as [|y xs _] using rev_ind; [simpl in Hlen; lia|].
  destruct xs as [|x xs _] using rev_ind.
  - simpl in Hlen. lia.
  - exists xs, x, y. by rewrite <- app_assoc.
Qed.

(** What [messages[-2].content if len(messages) >= 2 else ""] reads. *)
Lemma read_second_to_last (history : ChatMessageHistory) :
  (if (2 <=? length (messages history))%nat
   then match getitem_list (messages history) (-2) with
        | Ok msg => Ok (content msg)
        | Raise e => Raise e
        end
   else Ok "")
  = Ok (second_to_last_content history).
Proof.
  unfold second_to_last_content.
  destruct (Nat.leb_spec 2 (length (messages history))) as [Hlen|Hlen].
  - destruct (two_last_split _ Hlen) as (older & x & y & ->).
    rewrite getitem_list_neg2, rev_app_distr. reflexivity.
  - destruct (messages history) as [|x [|y rest]]; simpl in *; try done. lia.
Qed.

Section FollowUp.
Context {P : Python} `{Backend}.

Lemma follow_up_rewrite_kural (query : string) (s : State) :
  contains "thirukkural" (lower query) || contains "kural" (lower query) = true ->
  follow_up_rewrite query s
  = (Ok ("thirukkural",
         second_to_last_content (bhagavad_gita_history s) +:+ " (in Thirukkural)"), s).
Proof.
  intros Hk. unfold follow_up_rewrite, bind, get_state. rewrite Hk.
  pose proof (read_second_to_last (bhagavad_gita_history s)) as Hread.
  unfold lift, ret.
  destruct (2 <=? length (messages (bhagavad_gita_history s)))%nat.
  - destruct (getitem_list (messages (bhagavad_gita_history s)) (-2));
      [|discriminate]. by injection Hread as ->.
  - by injection Hread as <-.
Qed.

Lemma follow_up_rewrite_other (query : string) (s : State) :
  contains "thirukkural" (lower query) || contains "kural" (lower query) = false ->
  follow_up_rewrite query s
  = (Ok ("bhagavad_gita",
         second_to_last_content (thirukkural_history s) +:+ " (in Bhagavad Gita)"), s).
Proof.
  intros Hk. unfold follow_up_rewrite, bind, get_state. rewrite Hk.
  pose proof (read_second_to_last (thirukkural_history s)) as Hread.
  unfold lift, ret.
  destruct (2 <=? length (messages (thirukkural_history s)))%nat.
  - destruct (getitem_list (messages (thirukkural_history s)) (-2));
      [|discriminate]. by injection Hread as ->.
  - by injection Hread as <-.
Qed.

(** A follow-up is neither empty nor a greeting. *)
Lemma follow_up_not_greeting (query : string) :
  is_follow_up_query query = true ->
  String.eqb query "" = false /\ in_list (lower query) greetings = false.
Proof.
  intros Hf. unfold is_follow_up_query in Hf.
  apply andb_true_iff in Hf as [_ Hf]. split.
  - apply String.eqb_neq. intros ->.
    rewrite (lower_ascii "" eq_refl) in Hf. discriminate Hf.
  - destruct (in_list (lower query) greetings) eqn:E; [|done].
    apply existsb_exists in E as [g [Hin Heq]].
    apply String.eqb_eq in Heq. rewrite Heq in Hf. simpl in Hin.
    destruct Hin as [<-|[<-|[<-|[<-|[<-|[]]]]]]; discriminate Hf.
Qed.

(** C1: for a follow-up, the handler rewrites the query from the log
    of the other text.  If the lower-cased query mentions "thirukkural"
    or "kural", it generates for the domain "thirukkural" with the
    second-to-last message of the Bhagavad Gita log followed by
    " (in Thirukkural)"; otherwise for the domain "bhagavad_gita" with
    the second-to-last message of the Thirukkural log followed by
    " (in Bhagavad Gita)".  The text read from a log of fewer than two
    messages is empty. *)
Theorem handle_query_follow_up (data : gmap string Json) (query : string)
    (s : State) :
  data !! "query" = Some (JStr query) ->
  is_follow_up_query query = true ->
  let kural := occurs_in "thirukkural" (lower query) \/
               occurs_in "kural" (lower query) in
  (kural ->
   let rewritten :=
     second_to_last_content (bhagavad_gita_history s) +:+ " (in Thirukkural)" in
   follow_up_rewrite query s = (Ok ("thirukkural", rewritten), s) /\
   handle_query (Ok (JObj data)) s = respond rewritten "thirukkural" s) /\
  (~ kural ->
   let rewritten :=
     second_to_last_content (thirukkural_history s) +:+ " (in Bhagavad Gita)" in
   follow_up_rewrite query s = (Ok ("bhagavad_gita", rewritten), s) /\
   handle_query (Ok (JObj data)) s = respond rewritten "bhagavad_gita" s) /\
  (forall history : ChatMessageHistory,
     (length (messages history) < 2)%nat -> second_to_last_content history = "") /\
  (forall older x y,
     second_to_last_content {| messages := older ++ [x; y] |} = content x).
Proof.
  intros Hq Hf kural. subst kural.
  destruct (follow_up_not_greeting query Hf) as [Hne Hng].
  rewrite (handle_query_present data query s Hq Hne), Hng, Hf.
  rewrite <- !contains_spec, <- orb_true_iff.
  split; [|split; [|split]].
  - intros Hk. apply follow_up_rewrite_kural with (s := s) in Hk.
    split; [done|]. unfold bind. by rewrite Hk.
  - intros Hk. apply not_true_is_false in Hk.
    apply follow_up_rewrite_other with (s := s) in Hk.
    split; [done|]. unfold bind. by rewrite Hk.
  - intros history Hlen. unfold second_to_last_content.
    destruct (messages history) as [|x [|y rest]]; simpl in *; try done. lia.
  - intros older x y. unfold second_to_last_content. simpl.
    by rewrite rev_app_distr.
Qed.

End FollowUp.

(** ** The translation relay *)

Lemma same_logs_refl (s : State) : same_logs s s.
Proof. by split. Qed.

Lemma same_logs_trans (s1 s2 s3 : State) :
  same_logs s1 s2 -> same_logs s2 s3 -> same_logs s1 s3.
Proof. intros [? ?] [? ?]. split; congruence. Qed.

Lemma same_logs_emit (ev : Event) (s : State) : same_logs s (emit ev s).
Proof. by split. Qed.

Lemma thirukkural_dict_fields (r : ThirukkuralResponse) : has_fields (thirukkural_dict r).
Proof. exists (tk_translation r), (tk_explanation r), (tk_story r). by repeat split. Qed.

Lemma gita_dict_fields (r : BhagavadGitaResponse) : has_fields (gita_dict r).
Proof. exists (bg_translation r), (bg_explanation r), (bg_story r). by repeat split. Qed.

Section Relay.
Context {P : Python} `{Backend}.

Lemma generated_fields (query text_type : string) (s : State)
    (d : gmap string string) :
  generated query text_type s d -> has_fields d.
Proof.
  intros [[parsed [_ ->]] | [parsed [_ ->]]];
    [apply thirukkural_dict_fields | apply gita_dict_fields].
Qed.

(** A translation call reaches the outside world but no log. *)
Lemma translate_text_same_logs (text0 lang : Json) (s : State)
    (r : outcome string) (s' : State) :
  translate_text text0 lang s = (r, s') -> same_logs s s'.
Proof.
  unfold translate_text.
  destruct (falsy (getenv "AZURE_TRANSLATOR_KEY")
            || falsy (getenv "AZURE_TRANSLATOR_ENDPOINT")).
  - intros [= _ <-]. apply same_logs_refl.
  - unfold bind, post.
    match goal with |- context [requests_post ?t ?u ?h ?x] =>
      destruct (requests_post t u h x) as [response|e] end.
    + destruct (negb (status_code response =? 200));
        intros [= _ <-]; apply same_logs_emit.
    + intros [= _ <-]. apply same_logs_emit.
Qed.

(** One turn of the loop never raises: it records an entry for its
    locale, and the entry tells how the calls for that locale went. *)
Lemma translate_into_spec (d : gmap string string)
    (translations : gmap string (gmap string string)) (lang : string) (s : State) :
  has_fields d ->
  exists entry s',
    translate_into d translations lang s = (Ok (<[lang := entry]> translations), s') /\
    same_logs s s' /\ locale_result d lang entry.
Proof.
  intros (a & b & c & Ha & Hb & Hc).
  unfold translate_into, try_catch, bind, lift, getitem_dict, logging_error, ret.
  rewrite Ha, Hb, Hc.
  destruct (translate_text a lang s) as [[t|err] s1] eqn:E1.
  2:{ eexists _, _. split; [reflexivity|]. split.
      - eapply same_logs_trans; [by eapply translate_text_same_logs|].
        apply same_logs_emit.
      - right. split; [done|]. eauto. }
  destruct (translate_text b lang s1) as [[e|err] s2] eqn:E2.
  2:{ eexists _, _. split; [reflexivity|]. split.
      - eapply same_logs_trans; [by eapply translate_text_same_logs|].
        eapply same_logs_trans; [by eapply translate_text_same_logs|].
        apply same_logs_emit.
      - right. split; [done|]. eauto. }
  destruct (translate_text c lang s2) as [[st|err] s3] eqn:E3.
  2:{ eexists _, _. split; [reflexivity|]. split.
      - eapply same_logs_trans; [by eapply translate_text_same_logs|].
        eapply same_logs_trans; [by eapply translate_text_same_logs|].
        eapply same_logs_trans; [by eapply translate_text_same_logs|].
        apply same_logs_emit.
      - right. split; [done|]. eauto. }
  eexists _, _. split; [reflexivity|]. split.
  - eapply same_logs_trans; [by eapply translate_text_same_logs|].
    eapply same_logs_trans; [by eapply translate_text_same_logs|].
    by eapply translate_text_same_logs.
  - left. exists s, s1, s2, s3, a, b, c, t, e, st. by repeat split.
Qed.

(** The loop over distinct locales never raises; it leaves the entries
    of other locales alone and gives each of its locales its entry. *)
Lemma translate_loop_spec (d : gmap string string) (langs : list string) :
  has_fields d -> NoDup langs ->
  forall (translations : gmap string (gmap string string)) (s : State),
  exists translations' s',
    translate_loop d langs translations s = (Ok translations', s') /\
    same_logs s s' /\
    (forall lang, lang ∉ langs -> translations' !! lang = translations !! lang) /\
    (forall lang, lang ∈ langs ->
       exists entry, translations' !! lang = Some entry /\ locale_result d lang entry).
Proof.
  intros Hd. induction 1 as [|l rest Hl Hnd IH]; intros translations s.
  - exists translations, s. repeat split; try done.
    intros lang Hin. by apply elem_of_nil in Hin.
  - destruct (translate_into_spec d translations l s Hd)
      as (entry & s1 & Hrun & Hlogs1 & Hentry).
    destruct (IH (<[l := entry]> translations) s1)
      as (translations' & s' & Hloop & Hlogs2 & Hkeep & Hnew).
    exists translations', s'. cbn [translate_loop]. unfold bind.
    rewrite Hrun. split; [done|]. split; [by eapply same_logs_trans|]. split.
    + intros lang Hnot. apply not_elem_of_cons in Hnot as [Hne Hnot].
      rewrite (Hkeep lang Hnot). by apply lookup_insert_ne.
    + intros lang Hin. apply elem_of_cons in Hin as [->|Hin]; [|by apply Hnew].
      exists entry. split; [|done].
      rewrite (Hkeep l Hl). apply lookup_insert_eq.
Qed.

Lemma languages_distinct : NoDup languages.
Proof. apply (bool_decide_unpack _). by vm_compute. Qed.

End Relay.

(** ** The response generator *)

Section Generation.
Context {P : Python} `{Backend}.

(** A failed generation raises out of the [try] block right after the
    call to the model. *)
Lemma generate_response_try_fails (query text_type : string) (s : State)
    (e : string) :
  generation_fails query text_type s e ->
  generate_response_try query text_type s
  = (Raise e, emit (EvInvoke (prompt_for query text_type s)) s).
Proof.
  intros [Hinv | content Hinv Hparse];
    unfold generate_response_try, prompt_for, parse_error in *;
    destruct (String.eqb text_type "thirukkural");
    unfold bind, get_state, invoke, lift; cbv beta iota; rewrite Hinv; try done.
  - destruct (thirukkural_parse content); [discriminate|].
    by injection Hparse as ->.
  - destruct (gita_parse content); [discriminate|].
    by injection Hparse as ->.
Qed.

(** What the [try] block still has to do once a Thirukkural reply is
    parsed: the two turns are in the log and the relay starts. *)
Lemma generate_response_try_thirukkural (query text_type : string) (s : State)
    (parsed : ThirukkuralResponse) :
  thirukkural_generated query text_type s parsed ->
  exists s1,
    messages (thirukkural_history s1)
    = messages (thirukkural_history s)
      ++ [HumanMessage query;
          AIMessage ("Thirukkural about " +:+ lower (tk_section parsed)
                     +:+ " - Translation: " +:+ tk_translation parsed)] /\
    bhagavad_gita_history s1 = bhagavad_gita_history s /\
    generate_response_try query text_type s
    = (let* translations := translate_loop (thirukkural_dict parsed) languages ∅ in
       ret (<["translations" := VDict translations]>
              (VStr <$> thirukkural_dict parsed))) s1.
Proof.
  intros [-> (content & Hinv & Hparse)].
  unfold generate_response_try, prompt_for in *.
  change (String.eqb "thirukkural" "thirukkural") with true in *.
  cbv iota in Hinv.
  unfold bind at 1 2 3 4 5 6. unfold get_state, invoke, lift.
  cbv beta iota. rewrite Hinv, Hparse.
  unfold update_thirukkural, ret at 1. cbv beta iota.
  eexists. split; [|split; [|reflexivity]].
  - cbn [thirukkural_history add_ai_message add_user_message messages emit].
    by rewrite <- app_assoc.
  - reflexivity.
Qed.

Lemma generate_response_try_gita (query text_type : string) (s : State)
    (parsed : BhagavadGitaResponse) :
  gita_generated query text_type s parsed ->
  exists s1,
    messages (bhagavad_gita_history s1)
    = messages (bhagavad_gita_history s)
      ++ [HumanMessage query;
          AIMessage ("Bhagavad Gita " +:+ bg_chapter parsed
                     +:+ " - Translation: " +:+ bg_translation parsed)] /\
    thirukkural_history s1 = thirukkural_history s /\
    generate_response_try query text_type s
    = (let* translations := translate_loop (gita_dict parsed) languages ∅ in
       ret (<["translations" := VDict translations]>
              (VStr <$> gita_dict parsed))) s1.
Proof.
  intros [Hne (content & Hinv & Hparse)].
  apply String.eqb_neq in Hne.
  unfold generate_response_try, prompt_for in *. rewrite Hne in *.
  unfold bind at 1 2 3 4 5 6. unfold get_state, invoke, lift.
  cbv beta iota. rewrite Hinv, Hparse.
  unfold update_gita, ret at 1. cbv beta iota.
  eexists. split; [|split; [|reflexivity]].
  - cbn [bhagavad_gita_history add_ai_message add_user_message messages emit].
    by rewrite <- app_assoc.
  - reflexivity.
Qed.

(** The relay, started on a generated reply, completes it. *)
Lemma relay_completes (d : gmap string string) (s1 : State) :
  has_fields d ->
  exists translations s',
    (let* translations := translate_loop d languages ∅ in
     ret (<["translations" := VDict translations]> (VStr <$> d))) s1
    = (Ok (<["translations" := VDict translations]> (VStr <$> d)), s') /\
    same_logs s1 s' /\
    (forall lang, lang ∉ languages -> translations !! lang = None) /\
    (forall lang, lang ∈ languages ->
       exists entry, translations !! lang = Some entry /\ locale_result d lang entry).
Proof.
  intros Hd.
  destruct (translate_loop_spec d languages Hd languages_distinct ∅ s1)
    as (translations & s' & Hloop & Hlogs & Hkeep & Hnew).
  exists translations, s'. unfold bind. rewrite Hloop.
  split; [done|]. split; [done|]. split; [|done].
  intros lang Hnot. by rewrite (Hkeep lang Hnot).
Qed.

(** Whatever happens inside, [generate_response] returns a reply. *)
Lemma generate_response_returns (query text_type : string) (s : State) :
  exists response s', generate_response query text_type s = (Ok response, s').
Proof.
  unfold generate_response, try_catch.
  destruct (generate_response_try query text_type s) as [[response|e] s1]; eauto.
Qed.

Lemma generate_response_handles (query text_type : string) (s s1 : State)
    (e : string) :
  generate_response_try query text_type s = (Raise e, s1) ->
  generate_response query text_type s
  = (Ok (error_response e), emit (EvLog ("Error generating response: " +:+ e)) s1).
Proof. intros Htry. unfold generate_response, try_catch. by rewrite Htry. Qed.

(** C4: when the generation fails, because the model raised, or the
    parser, or anything else inside the [try] block, [generate_response]
    returns a reply and does not raise: the reply whose verse,
    translation and section are "Error", whose explanation carries the
    message of the error, and whose translations are empty. *)
Theorem generate_response_error_sentinel (query text_type : string)
    (s : State) (e : string) :
  generation_fails query text_type s e \/
  (exists s1, generate_response_try query text_type s = (Raise e, s1)) ->
  exists response s',
    generate_response query text_type s = (Ok response, s') /\
    response !! "verse" = Some (VStr "Error") /\
    response !! "translation" = Some (VStr "Error") /\
    response !! "section" = Some (VStr "Error") /\
    response !! "explanation" = Some (VStr ("An error occurred: " +:+ e)) /\
    response !! "translations" = Some (VDict ∅).
Proof.
  intros Hfail.
  assert (exists s1, generate_response_try query text_type s = (Raise e, s1))
    as [s1 Htry].
  { destruct Hfail as [Hfail|Hraise]; [|done].
    eexists. by apply generate_response_try_fails. }
  exists (error_response e), (emit (EvLog ("Error generating response: " +:+ e)) s1).
  split; [by apply generate_response_handles|]. by repeat split.
Qed.

(** C10: when the model or the parser raises, [generate_response]
    returns the error reply and both logs hold exactly the messages
    they held before; the only traces of the request are the call to
    the model and the logged error. *)
Theorem generate_response_failure_keeps_logs (query text_type : string)
    (s : State) (e : string) :
  generation_fails query text_type s e ->
  exists s',
    generate_response query text_type s = (Ok (error_response e), s') /\
    messages (thirukkural_history s') = messages (thirukkural_history s) /\
    messages (bhagavad_gita_history s') = messages (bhagavad_gita_history s) /\
    trace s' = trace s ++ [EvInvoke (prompt_for query text_type s);
                           EvLog ("Error generating response: " +:+ e)].
Proof.
  intros Hfail. apply generate_response_try_fails in Hfail.
  eexists. split; [by apply generate_response_handles|].
  cbn [emit thirukkural_history bhagavad_gita_history trace].
  by rewrite <- app_assoc.
Qed.

(** C7, as the code has it: a successful generation appends exactly two
    turns to the log of its domain and none to the other log: first the
    query as the user turn, then as the assistant turn the summary
    "<Label> - Translation: <translation>", written with a hyphen, where
    the label is "Thirukkural about" and the lower-cased section, or
    "Bhagavad Gita" and the chapter. *)
Theorem generate_response_appends_two_turns (query text_type : string)
    (s : State) :
  (forall parsed : ThirukkuralResponse,
     thirukkural_generated query text_type s parsed ->
     exists response s',
       generate_response query text_type s = (Ok response, s') /\
       messages (thirukkural_history s')
       = messages (thirukkural_history s)
         ++ [HumanMessage query;
             AIMessage (("Thirukkural about " +:+ lower (tk_section parsed))
                        +:+ " - Translation: " +:+ tk_translation parsed)] /\
       messages (bhagavad_gita_history s') = messages (bhagavad_gita_history s)) /\
  (forall parsed : BhagavadGitaResponse,
     gita_generated query text_type s parsed ->
     exists response s',
       generate_response query text_type s = (Ok response, s') /\
       messages (bhagavad_gita_history s')
       = messages (bhagavad_gita_history s)
         ++ [HumanMessage query;
             AIMessage (("Bhagavad Gita " +:+ bg_chapter parsed)
                        +:+ " - Translation: " +:+ bg_translation parsed)] /\
       messages (thirukkural_history s') = messages (thirukkural_history s)).
Proof.
  split; intros parsed Hgen.
  - destruct (generate_response_try_thirukkural _ _ _ _ Hgen)
      as (s1 & Hlog & Hother & Htry).
    destruct (relay_completes _ s1 (thirukkural_dict_fields parsed))
      as (translations & s' & Hrun & [Ht Hg] & _).
    eexists _, s'. unfold generate_response, try_catch.
    rewrite Htry, Hrun. split; [done|].
    rewrite Ht, Hg, Hother, Hlog. split; [|done].
    by rewrite append_assoc.
  - destruct (generate_response_try_gita _ _ _ _ Hgen)
      as (s1 & Hlog & Hother & Htry).
    destruct (relay_completes _ s1 (gita_dict_fields parsed))
      as (translations & s' & Hrun & [Ht Hg] & _).
    eexists _, s'. unfold generate_response, try_catch.
    rewrite Htry, Hrun. split; [done|].
    rewrite Ht, Hg, Hother, Hlog. split; [|done].
    by rewrite append_assoc.
Qed.

(** C5: after a successful generation the reply is the generated one
    completed with translations, which hold an entry for each of the
    ten locale codes and for nothing else.  Each entry comes from the
    calls made for its own locale: it is the fixed "Translation
    failed." entry if one of them raised, and the three answers of the
    service otherwise.  So a locale for which the service fails gets
    the fixed entry, and a locale for which the service answers gets
    its translations, whatever happens to the other locales. *)
Theorem translation_relay_isolates_failures (query text_type : string)
    (s : State) (d : gmap string string) :
  generated query text_type s d ->
  exists translations s',
    generate_response query text_type s
    = (Ok (<["translations" := VDict translations]> (VStr <$> d)), s') /\
    (forall lang,
       is_Some (translations !! lang) <->
       lang ∈ ["ta"; "hi"; "ml"; "te"; "bn"; "gu"; "kn"; "mr"; "pa"; "ur"]) /\
    (forall lang, lang ∈ languages ->
       exists entry, translations !! lang = Some entry /\
                     locale_result d lang entry) /\
    (forall lang, lang ∈ languages -> always_fails lang ->
       translations !! lang
       = Some {[ "translation" := "Translation failed.";
                 "explanation" := "Translation failed.";
                 "story" := "Translation failed." ]}) /\
    (forall lang, lang ∈ languages -> always_translates lang ->
       exists entry, translations !! lang = Some entry /\
                     translated_entry d lang entry).
Proof.
  intros Hgen. pose proof (generated_fields _ _ _ _ Hgen) as Hd.
  assert (exists s1, generate_response_try query text_type s
    = (let* translations := translate_loop d languages ∅ in
       ret (<["translations" := VDict translations]> (VStr <$> d))) s1)
    as [s1 Htry].
  { destruct Hgen as [[parsed [Hgen ->]] | [parsed [Hgen ->]]].
    - destruct (generate_response_try_thirukkural _ _ _ _ Hgen)
        as (s1 & _ & _ & Htry). eauto.
    - destruct (generate_response_try_gita _ _ _ _ Hgen)
        as (s1 & _ & _ & Htry). eauto. }
  destruct (relay_completes d s1 Hd)
    as (translations & s' & Hrun & _ & Hnone & Hentry).
  exists translations, s'. unfold generate_response, try_catch.
  rewrite Htry, Hrun. split; [done|]. fold languages. repeat split.
  - intros Hsome. destruct (decide (lang ∈ languages)) as [|Hnot]; [done|].
    rewrite (Hnone lang Hnot) in Hsome. by destruct Hsome.
  - intros Hin. destruct (Hentry lang Hin) as (entry & -> & _). eauto.
  - done.
  - intros lang Hin Hfails.
    destruct (Hentry lang Hin) as (entry & -> & [Htr | [-> _]]); [|done].
    destruct Htr as (s0 & s2 & s3 & s4 & a & b & c & t & e & st
                     & _ & _ & _ & Hcall & _).
    destruct (Hfails a s0) as (err & s0' & Hraise). congruence.
  - intros lang Hin Htranslates.
    destruct (Hentry lang Hin) as (entry & -> & [Htr | [_ Hfailed]]); [eauto|].
    destruct Hfailed as (s0 & s2 & text0 & err & Hraise).
    destruct (Htranslates text0 s0) as (t & s0' & Hok). congruence.
Qed.

End Generation.

(** ** Further properties of the pure functions *)

Lemma occurs_in_trans (a b c : string) :
  occurs_in a b -> occurs_in b c -> occurs_in a c.
Proof.
  intros (p1 & q1 & ->) (p2 & q2 & ->).
  exists (p2 +:+ p1), (q1 +:+ q2). by rewrite !append_assoc.
Qed.

Lemma contains_kural (s : string) :
  contains "thirukkural" s || contains "kural" s = contains "kural" s.
Proof.
  destruct (contains "thirukkural" s) eqn:Et; [|done]. symmetry.
  apply contains_spec. apply contains_spec in Et.
  apply (occurs_in_trans _ "thirukkural"); [|done].
  by exists "thiruk", "".
Qed.

(** X1: from one on, [max_messages] is a window on the end of the log:
    a log that ends with [n] messages is read as those [n] messages, and
    a log of at most [n] messages is read in full; the text built is
    the text built from the window alone. *)
Theorem recent_messages_window (older recent : list Message) (n : Z) :
  1 <= n ->
  (Z.of_nat (length recent) = n ->
   recent_messages {| messages := older ++ recent |} n = recent /\
   format_chat_history {| messages := older ++ recent |} n
   = join nl (map format_message recent)) /\
  (Z.of_nat (length recent) <= n ->
   recent_messages {| messages := recent |} n = recent).
Proof.
  intros Hn. split.
  - intros Hlen.
    assert (Hrec : recent_messages {| messages := older ++ recent |} n = recent).
    { unfold recent_messages, slice_from. cbn [messages].
      destruct (Z.ltb_spec (- n) 0); [|lia]. rewrite length_app.
      replace (Z.to_nat (Z.max (Z.of_nat (length older + length recent) + - n) 0))
        with (length older) by lia.
      apply drop_app_length. }
    split; [done|]. unfold format_chat_history. by rewrite Hrec.
  - intros Hlen. unfold recent_messages, slice_from. cbn [messages].
    destruct (Z.ltb_spec (- n) 0); [|lia].
    replace (Z.to_nat (Z.max (Z.of_nat (length recent) + - n) 0)) with O by lia.
    reflexivity.
Qed.

Section FollowUpDomain.
Context {P : Python} `{Backend}.

(** X3: the follow-up branch never raises and never changes the state.
    It picks the Thirukkural exactly when "kural" occurs in the
    lower-cased query (the test for "thirukkural" adds nothing), and
    then the classifier had picked the Thirukkural too: the branch can
    only move a query to the Bhagavad Gita. *)
Theorem follow_up_rewrite_domain (query : string) (s : State) :
  exists text_type rewritten,
    follow_up_rewrite query s = (Ok (text_type, rewritten), s) /\
    (text_type = "thirukkural" <-> occurs_in "kural" (lower query)) /\
    (text_type = "thirukkural" \/ text_type = "bhagavad_gita") /\
    (text_type = "thirukkural" -> determine_text_type query = "thirukkural").
Proof.
  destruct (contains "kural" (lower query)) eqn:Hk.
  - pose proof Hk as Hk'. rewrite <- contains_kural in Hk'.
    eexists _, _. split; [by apply follow_up_rewrite_kural|].
    apply contains_spec in Hk. split; [done|]. split; [by left|].
    intros _. unfold determine_text_type.
    assert (any_keyword_in thirukkural_keywords (lower query) = true) as ->; [|done].
    apply any_keyword_in_spec. exists "kural". split; [|done].
    apply list_elem_of_In. simpl. tauto.
  - pose proof Hk as Hk'. rewrite <- contains_kural in Hk'.
    eexists _, _. split; [by apply follow_up_rewrite_other|].
    split; [|split; [by right | done]].
    split; [done|]. intros Hocc. apply contains_spec in Hocc. congruence.
Qed.

End FollowUpDomain.

(** ** What the relay does to the trace *)

Lemma count_posts_app (evs1 evs2 : list Event) :
  count_posts (evs1 ++ evs2) = (count_posts evs1 + count_posts evs2)%nat.
Proof. unfold count_posts. by rewrite List.filter_app, length_app. Qed.

Lemma trace_emit (ev : Event) (s : State) : trace (emit ev s) = trace s ++ [ev].
Proof. reflexivity. Qed.

Section RelayTrace.
Context {P : Python} `{Backend}.

Lemma translate_text_unconfigured (text0 lang : string) (s : State) :
  configured = false ->
  translate_text text0 lang s
  = (Raise "Azure Translator API key or endpoint is not set in the environment variables.",
     s).
Proof.
  unfold configured, translate_text. intros Hc. apply negb_false_iff in Hc.
  by rewrite Hc.
Qed.

Lemma translate_text_configured (text0 lang : string) (s : State) :
  configured = true ->
  exists r,
    translate_text text0 lang s
    = (r, emit (EvPost (translator_url lang) translator_headers text0) s) /\
    (forall t, r = Ok t ->
       exists response,
         requests_post (trace s) (translator_url lang) translator_headers text0
         = Ok response /\
         status_code response = 200 /\ json_text response = Ok t) /\
    (forall response,
       requests_post (trace s) (translator_url lang) translator_headers text0
       = Ok response ->
       status_code response <> 200 ->
       r = Raise ("Azure Translator API error: " +:+ pretty (status_code response)
                  +:+ " - " +:+ response_text response)).
Proof.
  unfold configured, translate_text. intros Hc. apply negb_true_iff in Hc.
  rewrite Hc, format_value_str. fold (translator_url lang). fold translator_headers.
  unfold bind, post.
  destruct (requests_post (trace s) (translator_url lang) translator_headers text0)
    as [response|e] eqn:Hpost.
  - destruct (Z.eqb_spec (status_code response) 200) as [Hs|Hs]; cbn [negb].
    + unfold lift. eexists. split; [reflexivity|]. split.
      * intros t Ht. exists response. by repeat split.
      * intros response' [= <-] Hne. done.
    + unfold raise. eexists. split; [reflexivity|]. split.
      * intros t [=].
      * by intros response' [= <-] _.
  - eexists. split; [reflexivity|]. split; [intros t [=] | intros response [=]].
Qed.

(** One turn of the loop adds no call to the model and at most three
    posts: none without configuration, three when the service answers
    for the locale. *)
Lemma translate_into_trace (d : gmap string string)
    (translations : gmap string (gmap string string)) (lang : string) (s : State) :
  has_fields d ->
  exists r s' evs,
    translate_into d translations lang s = (r, s') /\
    trace s' = trace s ++ evs /\
    Forall (fun ev => is_invoke ev = false) evs /\
    (count_posts evs <= 3)%nat /\
    (configured = false ->
     r = Ok (<[lang := translation_failed]> translations) /\ count_posts evs = O) /\
    (always_translates lang -> count_posts evs = 3%nat).
Proof.
  intros (a & b & c & Ha & Hb & Hc).
  unfold translate_into, try_catch, bind, lift, getitem_dict, logging_error, ret.
  rewrite Ha, Hb, Hc.
  destruct configured eqn:Hconf.
  2:{ rewrite (translate_text_unconfigured a lang s Hconf).
      eexists _, _, [_]. split; [reflexivity|]. split; [reflexivity|].
      split; [by repeat constructor|]. split; [cbn; lia|]. split; [done|].
      intros Hall. destruct (Hall a s) as (t & s1 & Hok).
      rewrite (translate_text_unconfigured a lang s Hconf) in Hok. discriminate. }
  destruct (translate_text_configured a lang s Hconf) as (r1 & E1 & _).
  rewrite E1. destruct r1 as [t|err].
  2:{ eexists _, _, [_; _]. split; [reflexivity|].
      split; [by rewrite !trace_emit, <- app_assoc|].
      split; [by repeat constructor|]. split; [cbn; lia|]. split; [done|].
      intros Hall. destruct (Hall a s) as (t & s1 & Hok). congruence. }
  destruct (translate_text_configured b lang
              (emit (EvPost (translator_url lang) translator_headers a) s) Hconf)
    as (r2 & E2 & _).
  rewrite E2. destruct r2 as [e|err].
  2:{ eexists _, _, [_; _; _]. split; [reflexivity|].
      split; [by rewrite !trace_emit, <- !app_assoc|].
      split; [by repeat constructor|]. split; [cbn; lia|]. split; [done|].
      intros Hall. destruct (Hall b
        (emit (EvPost (translator_url lang) translator_headers a) s))
        as (t' & s1 & Hok). congruence. }
  destruct (translate_text_configured c lang
              (emit (EvPost (translator_url lang) translator_headers b)
                 (emit (EvPost (translator_url lang) translator_headers a) s)) Hconf)
    as (r3 & E3 & _).
  rewrite E3. destruct r3 as [st|err].
  2:{ eexists _, _, [_; _; _; _]. split; [reflexivity|].
      split; [by rewrite !trace_emit, <- !app_assoc|].
      split; [by repeat constructor|]. split; [cbn; lia|]. split; [done|].
      intros Hall. destruct (Hall c
        (emit (EvPost (translator_url lang) translator_headers b)
           (emit (EvPost (translator_url lang) translator_headers a) s)))
        as (t' & s1 & Hok). congruence. }
  eexists _, _, [_; _; _]. split; [reflexivity|].
  split; [by rewrite !trace_emit, <- !app_assoc|].
  split; [by repeat constructor|]. split; [cbn; lia|]. split; [done|].
  intros _. reflexivity.
Qed.

Lemma translate_loop_keep (d : gmap string string) (langs : list string) :
  has_fields d ->
  forall (translations : gmap string (gmap string string)) (s : State)
         (translations' : gmap string (gmap string string)) (s' : State),
    translate_loop d langs translations s = (Ok translations', s') ->
    forall lang, lang ∉ langs -> translations' !! lang = translations !! lang.
Proof.
  intros Hd. induction langs as [|l rest IH];
    intros translations s translations' s' Hloop lang Hnot.
  - by injection Hloop as ->.
  - apply not_elem_of_cons in Hnot as [Hne Hnot].
    destruct (translate_into_spec d translations l s Hd)
      as (entry & s1 & Hrun & _ & _).
    cbn [translate_loop] in Hloop. unfold bind in Hloop. rewrite Hrun in Hloop.
    rewrite (IH _ _ _ _ Hloop lang Hnot). by apply lookup_insert_ne.
Qed.

Lemma translate_loop_trace (d : gmap string string) (langs : list string) :
  has_fields d ->
  forall (translations : gmap string (gmap string string)) (s : State),
  exists r s' evs,
    translate_loop d langs translations s = (r, s') /\
    trace s' = trace s ++ evs /\
    Forall (fun ev => is_invoke ev = false) evs /\
    (count_posts evs <= 3 * length langs)%nat /\
    (configured = false ->
     count_posts evs = O /\
     exists translations',
       r = Ok translations' /\
       forall lang, lang ∈ langs -> translations' !! lang = Some translation_failed) /\
    ((forall lang, lang ∈ langs -> always_translates lang) ->
     count_posts evs = (3 * length langs)%nat).
Proof.
  intros Hd. induction langs as [|l rest IH]; intros translations s.
  - exists (Ok translations), s, []. split; [done|].
    split; [by rewrite app_nil_r|]. split; [done|]. split; [cbn; lia|]. split.
    + intros _. split; [done|]. exists translations. split; [done|].
      intros lang Hin. by apply elem_of_nil in Hin.
    + done.
  - destruct (translate_into_trace d translations l s Hd)
      as (r1 & s1 & evs1 & Hrun & Htr1 & Hinv1 & Hle1 & Hun1 & Hall1).
    destruct (translate_into_spec d translations l s Hd)
      as (entry & s1' & Hrun' & _ & _).
    rewrite Hrun in Hrun'. injection Hrun' as -> <-.
    destruct (IH (<[l := entry]> translations) s1)
      as (r & s' & evs & Hloop & Htr & Hinv & Hle & Hun & Hall).
    exists r, s', (evs1 ++ evs). cbn [translate_loop]. unfold bind.
    rewrite Hrun. split; [done|].
    split; [by rewrite Htr, Htr1, app_assoc|].
    split; [by apply Forall_app|]. rewrite count_posts_app. cbn [length].
    split; [lia|]. split.
    + intros Hconf. destruct (Hun1 Hconf) as [Hentry ->].
      destruct (Hun Hconf) as [-> (translations' & -> & Hfailed)].
      split; [done|]. exists translations'. split; [done|].
      intros lang Hin. destruct (decide (lang ∈ rest)) as [|Hnot]; [by apply Hfailed|].
      apply elem_of_cons in Hin as [->|]; [|done].
      rewrite (translate_loop_keep d rest Hd _ _ _ _ Hloop l Hnot).
      injection Hentry as Hentry. rewrite Hentry. apply lookup_insert_eq.
    + intros Hok. rewrite Hall1, Hall.
      * lia.
      * intros lang Hin. apply Hok. by apply elem_of_cons; right.
      * apply Hok. by apply elem_of_cons; left.
Qed.

End RelayTrace.

(** ** Every way a generation can go *)

Section Cases.
Context {P : Python} `{Backend}.

Lemma generation_dichotomy (query text_type : string) (s : State) :
  (exists e, generation_fails query text_type s e) \/
  (exists parsed, thirukkural_generated query text_type s parsed) \/
  (exists parsed, gita_generated query text_type s parsed).
Proof.
  destruct (genai_invoke (trace s) (prompt_for query text_type s))
    as [content|e] eqn:Hinv.
  2:{ left. exists e. by apply llm_raises. }
  destruct (String.eqb text_type "thirukkural") eqn:Hd.
  - destruct (thirukkural_parse content) as [parsed|e] eqn:Hparse.
    + right. left. exists parsed. apply String.eqb_eq in Hd. split; [done|]. eauto.
    + left. exists e. apply (parse_raises _ _ _ _ content); [done|].
      unfold parse_error. by rewrite Hd, Hparse.
  - destruct (gita_parse content) as [parsed|e] eqn:Hparse.
    + right. right. exists parsed. apply String.eqb_neq in Hd. split; [done|]. eauto.
    + left. exists e. apply (parse_raises _ _ _ _ content); [done|].
      unfold parse_error. by rewrite Hd, Hparse.
Qed.

(** The state in which the relay starts after a Thirukkural reply. *)
Lemma generate_response_try_thirukkural_state (query text_type : string)
    (s : State) (parsed : ThirukkuralResponse) :
  thirukkural_generated query text_type s parsed ->
  exists s1,
    messages (thirukkural_history s1)
    = messages (thirukkural_history s)
      ++ [HumanMessage query;
          AIMessage ("Thirukkural about " +:+ lower (tk_section parsed)
                     +:+ " - Translation: " +:+ tk_translation parsed)] /\
    bhagavad_gita_history s1 = bhagavad_gita_history s /\
    trace s1 = trace s ++ [EvInvoke (prompt_for query text_type s)] /\
    generate_response_try query text_type s
    = (let* translations := translate_loop (thirukkural_dict parsed) languages ∅ in
       ret (<["translations" := VDict translations]>
              (VStr <$> thirukkural_dict parsed))) s1.
Proof.
  intros [-> (content & Hinv & Hparse)].
  unfold generate_response_try, prompt_for in *.
  change (String.eqb "thirukkural" "thirukkural") with true in *.
  cbv iota in Hinv.
  unfold bind at 1 2 3 4 5 6. unfold get_state, invoke, lift.
  cbv beta iota. rewrite Hinv, Hparse.
  unfold update_thirukkural, ret at 1. cbv beta iota.
  eexists. split; [|split; [|split; [|reflexivity]]].
  - cbn [thirukkural_history add_ai_message add_user_message messages emit].
    by rewrite <- app_assoc.
  - reflexivity.
  - reflexivity.
Qed.

Lemma generate_response_try_gita_state (query text_type : string)
    (s : State) (parsed : BhagavadGitaResponse) :
  gita_generated query text_type s parsed ->
  exists s1,
    messages (bhagavad_gita_history s1)
    = messages (bhagavad_gita_history s)
      ++ [HumanMessage query;
          AIMessage ("Bhagavad Gita " +:+ bg_chapter parsed
                     +:+ " - Translation: " +:+ bg_translation parsed)] /\
    thirukkural_history s1 = thirukkural_history s /\
    trace s1 = trace s ++ [EvInvoke (prompt_for query text_type s)] /\
    generate_response_try query text_type s
    = (let* translations := translate_loop (gita_dict parsed) languages ∅ in
       ret (<["translations" := VDict translations]>
              (VStr <$> gita_dict parsed))) s1.
Proof.
  intros [Hne (content & Hinv & Hparse)].
  apply String.eqb_neq in Hne.
  unfold generate_response_try, prompt_for in *. rewrite Hne in *.
  unfold bind at 1 2 3 4 5 6. unfold get_state, invoke, lift.
  cbv beta iota. rewrite Hinv, Hparse.
  unfold update_gita, ret at 1. cbv beta iota.
  eexists. split; [|split; [|split; [|reflexivity]]].
  - cbn [bhagavad_gita_history add_ai_message add_user_message messages emit].
    by rewrite <- app_assoc.
  - reflexivity.
  - reflexivity.
Qed.

Lemma relay_trace (d : gmap string string) (s1 : State) :
  has_fields d ->
  exists r s' evs,
    (let* translations := translate_loop d languages ∅ in
     ret (<["translations" := VDict translations]> (VStr <$> d))) s1
    = (Ok r, s') /\
    relayed d s1 r s' evs.
Proof.
  intros Hd.
  destruct (relay_completes d s1 Hd)
    as (translations & s' & Hrun & Hlogs & Hnone & Hentry).
  destruct (translate_loop_trace d languages Hd ∅ s1)
    as (r & s'' & evs & Hloop & Htr & Hinv & Hle & Hun & Hall).
  unfold bind in Hrun. rewrite Hloop in Hrun.
  destruct r as [translations''|e]; [|discriminate].
  unfold ret in Hrun. injection Hrun as Hmap ->.
  exists (<["translations" := VDict translations'']> (VStr <$> d)), s', evs.
  unfold bind. rewrite Hloop. split; [done|].
  assert (translations'' = translations) as ->.
  { assert (Hl : (<["translations" := VDict translations'']>
                    (VStr <$> d) : gmap string Value) !! "translations"
                 = (<["translations" := VDict translations]>
                    (VStr <$> d) : gmap string Value) !! "translations")
      by (by rewrite Hmap).
    rewrite !lookup_insert_eq in Hl. by injection Hl. }
  exists translations. split; [done|]. split; [done|]. split; [done|].
  split; [done|]. split; [exact Hle|]. split; [|split].
  - intros lang. split.
    + intros Hsome. destruct (decide (lang ∈ languages)) as [|Hnot]; [done|].
      rewrite (Hnone lang Hnot) in Hsome. by destruct Hsome.
    + intros Hin. destruct (Hentry lang Hin) as (entry & -> & _). eauto.
  - intros Hconf. destruct (Hun Hconf) as [-> (translations' & [= <-] & Hfailed)].
    done.
  - exact Hall.
Qed.

(** [generate_response] makes one call to the model, and then either
    fails and returns the error reply, or relays a Thirukkural reply,
    or relays a Gita reply. *)
Lemma generate_response_cases (query text_type : string) (s : State) :
  exists r s' evs,
    generate_response query text_type s = (Ok r, s') /\
    trace s' = trace s ++ EvInvoke (prompt_for query text_type s) :: evs /\
    ((exists e,
        generation_fails query text_type s e /\ r = error_response e /\
        same_logs s s' /\ evs = [EvLog ("Error generating response: " +:+ e)]) \/
     (exists parsed s1,
        thirukkural_generated query text_type s parsed /\
        messages (thirukkural_history s1)
        = messages (thirukkural_history s)
          ++ [HumanMessage query;
              AIMessage ("Thirukkural about " +:+ lower (tk_section parsed)
                         +:+ " - Translation: " +:+ tk_translation parsed)] /\
        bhagavad_gita_history s1 = bhagavad_gita_history s /\
        trace s1 = trace s ++ [EvInvoke (prompt_for query text_type s)] /\
        relayed (thirukkural_dict parsed) s1 r s' evs) \/
     (exists parsed s1,
        gita_generated query text_type s parsed /\
        messages (bhagavad_gita_history s1)
        = messages (bhagavad_gita_history s)
          ++ [HumanMessage query;
              AIMessage ("Bhagavad Gita " +:+ bg_chapter parsed
                         +:+ " - Translation: " +:+ bg_translation parsed)] /\
        thirukkural_history s1 = thirukkural_history s /\
        trace s1 = trace s ++ [EvInvoke (prompt_for query text_type s)] /\
        relayed (gita_dict parsed) s1 r s' evs)).
Proof.
  destruct (generation_dichotomy query text_type s)
    as [[e Hfail] | [[parsed Hgen] | [parsed Hgen]]].
  - pose proof (generate_response_try_fails _ _ _ _ Hfail) as Htry.
    eexists _, _, _. split; [by apply generate_response_handles|]. split.
    + rewrite !trace_emit, <- app_assoc. reflexivity.
    + left. exists e. repeat split; done.
  - destruct (generate_response_try_thirukkural_state _ _ _ _ Hgen)
      as (s1 & Hlog & Hother & Htr & Htry).
    destruct (relay_trace _ s1 (thirukkural_dict_fields parsed))
      as (r & s' & evs & Hrun & Hrel).
    exists r, s', evs. unfold generate_response, try_catch.
    rewrite Htry, Hrun. split; [done|]. split.
    + destruct Hrel as (? & _ & _ & -> & _). rewrite Htr, <- app_assoc. done.
    + right. left. exists parsed, s1. done.
  - destruct (generate_response_try_gita_state _ _ _ _ Hgen)
      as (s1 & Hlog & Hother & Htr & Htry).
    destruct (relay_trace _ s1 (gita_dict_fields parsed))
      as (r & s' & evs & Hrun & Hrel).
    exists r, s', evs. unfold generate_response, try_catch.
    rewrite Htry, Hrun. split; [done|]. split.
    + destruct Hrel as (? & _ & _ & -> & _). rewrite Htr, <- app_assoc. done.
    + right. right. exists parsed, s1. done.
Qed.

End Cases.

(** ** Further properties of the response generator *)

Section GeneratorExtras.
Context {P : Python} `{Backend}.

(** A generation does not both succeed and fail. *)
Lemma generated_not_fails (query text_type : string) (s : State)
    (d : gmap string string) (e : string) :
  generated query text_type s d -> generation_fails query text_type s e -> False.
Proof.
  intros Hgen Hfail.
  destruct Hfail as [Hraise | c' Hinv' Hperr].
  - destruct Hgen as [(p & (_ & c & Hinv & _) & _) | (p & (_ & c & Hinv & _) & _)];
      congruence.
  - unfold parse_error in Hperr.
    destruct Hgen as [(p & (-> & c & Hinv & Hp) & _) | (p & (Hne & c & Hinv & Hp) & _)];
      rewrite Hinv in Hinv'; injection Hinv' as <-.
    + change (String.eqb "thirukkural" "thirukkural") with true in Hperr.
      by rewrite Hp in Hperr.
    + apply String.eqb_neq in Hne. by rewrite Hne, Hp in Hperr.
Qed.

(** X4: a successful reply carries the five fields of the parsed reply
    of its domain and the translations: a Thirukkural reply has a
    "section" and no "chapter", a Gita reply a "chapter" and no
    "section". *)
Theorem generate_response_reply_shape (query text_type : string) (s : State) :
  (forall parsed : ThirukkuralResponse,
     thirukkural_generated query text_type s parsed ->
     exists r s' translations,
       generate_response query text_type s = (Ok r, s') /\
       r !! "verse" = Some (VStr (tk_verse parsed)) /\
       r !! "translation" = Some (VStr (tk_translation parsed)) /\
       r !! "section" = Some (VStr (tk_section parsed)) /\
       r !! "explanation" = Some (VStr (tk_explanation parsed)) /\
       r !! "story" = Some (VStr (tk_story parsed)) /\
       r !! "chapter" = None /\
       r !! "translations" = Some (VDict translations)) /\
  (forall parsed : BhagavadGitaResponse,
     gita_generated query text_type s parsed ->
     exists r s' translations,
       generate_response query text_type s = (Ok r, s') /\
       r !! "verse" = Some (VStr (bg_verse parsed)) /\
       r !! "translation" = Some (VStr (bg_translation parsed)) /\
       r !! "chapter" = Some (VStr (bg_chapter parsed)) /\
       r !! "explanation" = Some (VStr (bg_explanation parsed)) /\
       r !! "story" = Some (VStr (bg_story parsed)) /\
       r !! "section" = None /\
       r !! "translations" = Some (VDict translations)).
Proof.
  split; intros parsed Hgen.
  - destruct (generate_response_try_thirukkural_state _ _ _ _ Hgen)
      as (s1 & _ & _ & _ & Htry).
    destruct (relay_trace _ s1 (thirukkural_dict_fields parsed))
      as (r & s' & evs & Hrun & (translations & -> & _)).
    eexists _, s', translations. unfold generate_response, try_catch.
    rewrite Htry, Hrun. by repeat split.
  - destruct (generate_response_try_gita_state _ _ _ _ Hgen)
      as (s1 & _ & _ & _ & Htry).
    destruct (relay_trace _ s1 (gita_dict_fields parsed))
      as (r & s' & evs & Hrun & (translations & -> & _)).
    eexists _, s', translations. unfold generate_response, try_catch.
    rewrite Htry, Hrun. by repeat split.
Qed.

(** X5: whatever the outcome, [generate_response] calls the model
    exactly once, before anything else, with the prompt built from the
    query and the log of the domain; no later event is a call to the
    model. *)
Theorem generate_response_one_model_call (query text_type : string) (s : State) :
  exists r s' evs,
    generate_response query text_type s = (Ok r, s') /\
    trace s' = trace s ++ EvInvoke (prompt_for query text_type s) :: evs /\
    Forall (fun ev => is_invoke ev = false) evs.
Proof.
  destruct (generate_response_cases query text_type s)
    as (r & s' & evs & Hrun & Htr & Hcases).
  exists r, s', evs. split; [done|]. split; [done|].
  destruct Hcases as [(e & _ & _ & _ & ->) | [Hc | Hc]].
  - by repeat constructor.
  - by destruct Hc as (? & ? & _ & _ & _ & _ & (? & _ & _ & _ & Hinv & _)).
  - by destruct Hc as (? & ? & _ & _ & _ & _ & (? & _ & _ & _ & Hinv & _)).
Qed.

(** X6: one request posts to the translation service at most thirty
    times: never when the generation fails, and exactly thirty times
    when the generation succeeds and the service answers for every
    locale. *)
Theorem generate_response_posts (query text_type : string) (s : State) :
  exists r s' evs,
    generate_response query text_type s = (Ok r, s') /\
    trace s' = trace s ++ evs /\
    (count_posts evs <= 30)%nat /\
    ((exists e, generation_fails query text_type s e) -> count_posts evs = O) /\
    ((forall lang, lang ∈ languages -> always_translates lang) ->
     (exists d, generated query text_type s d) ->
     count_posts evs = 30%nat).
Proof.
  destruct (generate_response_cases query text_type s)
    as (r & s' & evs & Hrun & Htr & Hcases).
  exists r, s', (EvInvoke (prompt_for query text_type s) :: evs).
  split; [done|]. split; [done|].
  change (count_posts (EvInvoke (prompt_for query text_type s) :: evs))
    with (count_posts evs).
  destruct Hcases as [(e & Hfail & _ & _ & ->) | [Hc | Hc]].
  - split; [cbn; lia|]. split; [done|].
    intros _ [d Hgen]. exfalso. by eapply generated_not_fails.
  - destruct Hc as (p & s1 & Hgen & _ & _ & _ & (t & _ & _ & _ & _ & Hle & _ & _ & Hall)).
    split; [done|]. split; [|by intros Hok _; apply Hall].
    intros [e Hfail]. exfalso.
    eapply generated_not_fails; [|exact Hfail]. left. eauto.
  - destruct Hc as (p & s1 & Hgen & _ & _ & _ & (t & _ & _ & _ & _ & Hle & _ & _ & Hall)).
    split; [done|]. split; [|by intros Hok _; apply Hall].
    intros [e Hfail]. exfalso.
    eapply generated_not_fails; [|exact Hfail]. right. eauto.
Qed.

(** X7: when a translator variable is missing from the environment, a
    successful generation still returns the generated reply; every one
    of the ten locales gets the "Translation failed." entry and no post
    is made. *)
Theorem generate_response_unconfigured (query text_type : string) (s : State)
    (d : gmap string string) :
  configured = false ->
  generated query text_type s d ->
  exists translations s' evs,
    generate_response query text_type s
    = (Ok (<["translations" := VDict translations]> (VStr <$> d)), s') /\
    (forall lang, lang ∈ languages ->
       translations !! lang = Some translation_failed) /\
    trace s' = trace s ++ evs /\ count_posts evs = O.
Proof.
  intros Hconf Hgen.
  assert (exists s1, trace s1 = trace s ++ [EvInvoke (prompt_for query text_type s)] /\
    generate_response_try query text_type s
    = (let* translations := translate_loop d languages ∅ in
       ret (<["translations" := VDict translations]> (VStr <$> d))) s1)
    as (s1 & Htr1 & Htry).
  { destruct Hgen as [[parsed [Hgen ->]] | [parsed [Hgen ->]]].
    - destruct (generate_response_try_thirukkural_state _ _ _ _ Hgen)
        as (s1 & _ & _ & ? & ?). eauto.
    - destruct (generate_response_try_gita_state _ _ _ _ Hgen)
        as (s1 & _ & _ & ? & ?). eauto. }
  destruct (relay_trace d s1 (generated_fields _ _ _ _ Hgen))
    as (r & s' & evs & Hrun & (translations & -> & _ & Htr & _ & _ & _ & Hun & _)).
  destruct (Hun Hconf) as [Hzero Hfailed].
  exists translations, s', (EvInvoke (prompt_for query text_type s) :: evs).
  unfold generate_response, try_catch. rewrite Htry, Hrun.
  split; [done|]. split; [done|]. split; [|done].
  by rewrite Htr, Htr1, <- app_assoc.
Qed.

(** X8: [generate_response] never touches the log of the other domain,
    and to the log of its own domain it adds nothing or one user turn,
    the query, followed by one assistant turn. *)
Theorem generate_response_log_effect (query text_type : string) (s : State) :
  exists r s',
    generate_response query text_type s = (Ok r, s') /\
    (text_type = "thirukkural" ->
     bhagavad_gita_history s' = bhagavad_gita_history s /\
     (thirukkural_history s' = thirukkural_history s \/
      exists summary,
        messages (thirukkural_history s')
        = messages (thirukkural_history s)
          ++ [HumanMessage query; AIMessage summary])) /\
    (text_type <> "thirukkural" ->
     thirukkural_history s' = thirukkural_history s /\
     (bhagavad_gita_history s' = bhagavad_gita_history s \/
      exists summary,
        messages (bhagavad_gita_history s')
        = messages (bhagavad_gita_history s)
          ++ [HumanMessage query; AIMessage summary])).
Proof.
  destruct (generate_response_cases query text_type s)
    as (r & s' & evs & Hrun & _ & Hcases).
  exists r, s'. split; [done|].
  destruct Hcases as [(e & _ & _ & [Ht Hg] & _) | [Hc | Hc]].
  - split; intros _; split; auto.
  - destruct Hc as (p & s1 & [-> _] & Hlog & Hother & _ & (t & _ & [Ht Hg] & _)).
    split; [|done]. intros _. split; [congruence|]. right.
    eexists. rewrite Ht. exact Hlog.
  - destruct Hc as (p & s1 & [Hne _] & Hlog & Hother & _ & (t & _ & [Ht Hg] & _)).
    split; [done|]. intros _. split; [congruence|]. right.
    eexists. rewrite Hg. exact Hlog.
Qed.

End GeneratorExtras.

(** ** Further properties of the handlers *)

Lemma paired_second_to_last (history : ChatMessageHistory) :
  paired (messages history) ->
  second_to_last_content history = last_user_query history.
Proof.
  unfold second_to_last_content, last_user_query.
  destruct 1 as [|older q a _]; [done|].
  rewrite rev_app_distr, List.filter_app. cbn [rev app List.filter is_human content].
  by rewrite last_snoc.
Qed.

Lemma grown_from_refl (s : State) : grown_from s s.
Proof. repeat split; exists []; by rewrite app_nil_r. Qed.

Section HandlerExtras.
Context {P : Python} `{Backend}.

(** X9: [translate_text] never touches the logs.  Without both
    translator variables it raises before any call goes out; with them
    it makes exactly one post, to the address of the locale with the
    text as payload, and it returns a translation only if the answer
    has status 200, raising the status and the body of any other
    answer. *)
Theorem translate_text_effect (text0 lang : string) (s : State) :
  (configured = false ->
   translate_text text0 lang s
   = (Raise "Azure Translator API key or endpoint is not set in the environment variables.",
      s)) /\
  (configured = true ->
   exists r,
     translate_text text0 lang s
     = (r, emit (EvPost (translator_url lang) translator_headers text0) s) /\
     (forall t, r = Ok t ->
        exists response,
          requests_post (trace s) (translator_url lang) translator_headers text0
          = Ok response /\
          status_code response = 200 /\ json_text response = Ok t) /\
     (forall response,
        requests_post (trace s) (translator_url lang) translator_headers text0
        = Ok response ->
        status_code response <> 200 ->
        r = Raise ("Azure Translator API error: " +:+ pretty (status_code response)
                   +:+ " - " +:+ response_text response))) /\
  (forall r s', translate_text text0 lang s = (r, s') -> same_logs s s').
Proof.
  split; [apply translate_text_unconfigured|].
  split; [apply translate_text_configured|].
  intros r s'. apply translate_text_same_logs.
Qed.

(** X10: a translation request whose body is a JSON object in which
    one of the four fields is missing or holds a falsy value (null,
    false, zero, an empty text, list or object) is refused with status
    400, and nothing else happens.  A body that is no JSON object is
    not refused that way: the handler raises, an [AttributeError] for a
    JSON value without [get] and the framework's own error when there
    is no JSON; the state is untouched there too. *)
Theorem handle_translation_missing_field (data : gmap string Json)
    (key : string) (s : State) :
  key ∈ ["text"; "explanation"; "story"; "language"] ->
  truthy (default JNull (data !! key)) = false ->
  handle_translation (Ok (JObj data)) s
  = (Ok {| status := 400;
           body := {[ "error" :=
             VStr "Text, explanation, story, and target language are required" ]} |},
     s) /\
  (forall body0 : Json,
     (forall fields, body0 <> JObj fields) ->
     handle_translation (Ok body0) s = (Raise (no_attribute body0 "get"), s)) /\
  (forall e, handle_translation (Raise e) s = (Raise e, s)).
Proof.
  intros Hkey Hf. split; [|split].
  - unfold handle_translation, lift, json_get. unfold bind at 1 2 3 4 5.
    set_unfold in Hkey.
    destruct Hkey as [->|[->|[->|[->|[]]]]]; rewrite Hf; cbn [negb];
      by rewrite ?orb_true_r, ?orb_true_l.
  - intros body0 Hno. unfold handle_translation, lift, bind.
    destruct body0; try done. by destruct (Hno fields).
  - done.
Qed.

(** X11: a complete translation request never raises and never touches
    the logs.  It is answered with status 200 and the three
    translations when the three calls succeed in turn, and otherwise
    with status 500 and the message of the first call that raised,
    which is also logged. *)
Theorem handle_translation_outcomes (data : gmap string Json)
    (text0 explanation story lang : string) (s : State) :
  data !! "text" = Some (JStr text0) ->
  data !! "explanation" = Some (JStr explanation) ->
  data !! "story" = Some (JStr story) -> data !! "language" = Some (JStr lang) ->
  text0 <> "" -> explanation <> "" -> story <> "" -> lang <> "" ->
  exists reply s',
    handle_translation (Ok (JObj data)) s = (Ok reply, s') /\
    same_logs s s' /\
    ((exists t e st s1 s2,
        translate_text text0 lang s = (Ok t, s1) /\
        translate_text explanation lang s1 = (Ok e, s2) /\
        translate_text story lang s2 = (Ok st, s') /\
        reply = jsonify {[ "translated_text" := VStr t;
                           "translated_explanation" := VStr e;
                           "translated_story" := VStr st;
                           "languages" := VList languages;
                           "ready_for_translation" := VBool true ]}) \/
     (exists err s1 (text1 : string) s0,
        translate_text text1 lang s0 = (Raise err, s1) /\
        text1 ∈ [text0; explanation; story] /\
        s' = emit (EvLog ("Error during translation: " +:+ err)) s1 /\
        reply = {| status := 500; body := {[ "error" := VStr err ]} |})).
Proof.
  intros Ht He Hs Hl Hnt Hne Hns Hnl.
  apply String.eqb_neq in Hnt, Hne, Hns, Hnl.
  unfold handle_translation, lift, json_get. unfold bind at 1 2 3 4 5.
  rewrite Ht, He, Hs, Hl.
  cbn [truthy default from_option id]. rewrite Hnt, Hne, Hns, Hnl. cbn [orb negb].
  unfold try_catch, bind, logging_error, ret.
  destruct (translate_text text0 lang s) as [[t|err] s1] eqn:E1.
  2:{ eexists _, _. split; [reflexivity|]. split.
      - eapply same_logs_trans; [by eapply translate_text_same_logs|].
        apply same_logs_emit.
      - right. exists err, s1, text0, s. repeat split; try done. set_solver. }
  destruct (translate_text explanation lang s1) as [[e|err] s2] eqn:E2.
  2:{ eexists _, _. split; [reflexivity|]. split.
      - eapply same_logs_trans; [by eapply translate_text_same_logs|].
        eapply same_logs_trans; [by eapply translate_text_same_logs|].
        apply same_logs_emit.
      - right. exists err, s2, explanation, s1. repeat split; try done. set_solver. }
  destruct (translate_text story lang s2) as [[st|err] s3] eqn:E3.
  2:{ eexists _, _. split; [reflexivity|]. split.
      - eapply same_logs_trans; [by eapply translate_text_same_logs|].
        eapply same_logs_trans; [by eapply translate_text_same_logs|].
        eapply same_logs_trans; [by eapply translate_text_same_logs|].
        apply same_logs_emit.
      - right. exists err, s3, story, s2. repeat split; try done. set_solver. }
  eexists _, _. split; [reflexivity|]. split.
  - eapply same_logs_trans; [by eapply translate_text_same_logs|].
    eapply same_logs_trans; [by eapply translate_text_same_logs|].
    by eapply translate_text_same_logs.
  - left. exists t, e, st, s1, s2. done.
Qed.

(** X12: [clear_history] empties both logs and leaves the trace alone.
    After it the context given to the model is empty whatever the
    window, and a follow-up is rewritten to the bare suffix. *)
Theorem clear_history_resets (s : State) :
  exists s',
    clear_history s
    = (Ok (jsonify {[ "message" := VStr "Conversation history cleared!" ]}), s') /\
    messages (thirukkural_history s') = [] /\
    messages (bhagavad_gita_history s') = [] /\
    trace s' = trace s /\
    (forall n, format_chat_history (thirukkural_history s') n = "" /\
               format_chat_history (bhagavad_gita_history s') n = "") /\
    (forall query text_type rewritten s'',
       follow_up_rewrite query s' = (Ok (text_type, rewritten), s'') ->
       rewritten = " (in Thirukkural)" \/ rewritten = " (in Bhagavad Gita)").
Proof.
  eexists. split; [reflexivity|]. split; [done|]. split; [done|]. split; [done|].
  split.
  - intros n. unfold format_chat_history, recent_messages, slice_from.
    cbn [messages thirukkural_history bhagavad_gita_history clear].
    by rewrite drop_nil.
  - intros query text_type rewritten s'' Hrun.
    destruct (contains "thirukkural" (lower query) || contains "kural" (lower query))
      eqn:Hk.
    + rewrite (follow_up_rewrite_kural _ _ Hk) in Hrun.
      injection Hrun as _ <- _. by left.
    + rewrite (follow_up_rewrite_other _ _ Hk) in Hrun.
      injection Hrun as _ <- _. by right.
Qed.

Lemma handle_query_not_object (data : Json) (s : State) :
  (forall fields, data <> JObj fields) ->
  handle_query (Ok data) s = (Raise (no_attribute data "get"), s).
Proof. intros Hno. destruct data; try done. by destruct (Hno fields). Qed.

Lemma handle_query_object (fields : gmap string Json) (s : State) :
  handle_query (Ok (JObj fields)) s
  = (let query := default JNull (fields !! "query") in
     if negb (truthy query) then
       ret {| status := 400; body := {[ "error" := VStr "Query is required" ]} |}
     else
       match query with
       | JStr query =>
           if in_list (lower query) greetings then
             ret (jsonify greeting_response)
           else
             let* (text_type, query) :=
               if is_follow_up_query query then follow_up_rewrite query
               else ret (determine_text_type query, query) in
             respond query text_type
       | _ => raise (no_attribute query "lower")
       end) s.
Proof. reflexivity. Qed.

(** Where the handler goes, by what the request holds. *)
Lemma handle_query_cases (request_json : outcome Json) (s : State) :
  (exists e, request_json = Raise e /\ handle_query request_json s = (Raise e, s)) \/
  (exists data,
     request_json = Ok data /\ (forall fields, data <> JObj fields) /\
     handle_query request_json s = (Raise (no_attribute data "get"), s)) \/
  (exists fields,
     request_json = Ok (JObj fields) /\
     truthy (default JNull (fields !! "query")) = false /\
     handle_query request_json s
     = (Ok {| status := 400; body := {[ "error" := VStr "Query is required" ]} |}, s)) \/
  (exists fields,
     request_json = Ok (JObj fields) /\
     truthy (default JNull (fields !! "query")) = true /\
     (forall q : string, default JNull (fields !! "query") <> JStr q) /\
     handle_query request_json s
     = (Raise (no_attribute (default JNull (fields !! "query")) "lower"), s)) \/
  (exists fields query,
     request_json = Ok (JObj fields) /\
     default JNull (fields !! "query") = JStr query /\ query <> "" /\
     in_list (lower query) greetings = true /\
     handle_query request_json s = (Ok (jsonify greeting_response), s)) \/
  (exists fields query,
     request_json = Ok (JObj fields) /\
     default JNull (fields !! "query") = JStr query /\ query <> "" /\
     in_list (lower query) greetings = false /\
     handle_query request_json s = respond (route query s).2 (route query s).1 s).
Proof.
  destruct request_json as [data|e]; [|left; eauto].
  right. destruct data as [ | | | | | |fields];
    try (left; eexists; split; [done|]; split; [done|]; reflexivity).
  right. rewrite (handle_query_object fields s). cbv zeta.
  destruct (truthy (default JNull (fields !! "query"))) eqn:Ht; [|left; eauto].
  right. cbn [negb].
  destruct (default JNull (fields !! "query")) as [ | | | |query| | ] eqn:Hq;
    try (left; exists fields; rewrite Hq; repeat split; done).
  right.
  assert (Hne : query <> "").
  { intros ->. cbn in Ht. discriminate. }
  destruct (in_list (lower query) greetings) eqn:Hg.
  { left. exists fields, query. rewrite Hq. by repeat split. }
  right. exists fields, query. rewrite Hq.
  split; [done|]. split; [done|]. split; [done|]. split; [done|].
  unfold route, bind. destruct (is_follow_up_query query); [|done].
  destruct (contains "kural" (lower query)) eqn:Hk.
  - pose proof Hk as Hk'. rewrite <- contains_kural in Hk'.
    by rewrite (follow_up_rewrite_kural _ s Hk').
  - pose proof Hk as Hk'. rewrite <- contains_kural in Hk'.
    by rewrite (follow_up_rewrite_other _ s Hk').
Qed.

Lemma respond_cases (query text_type : string) (s : State) (r : gmap string Value)
    (s' : State) :
  generate_response query text_type s = (Ok r, s') ->
  respond query text_type s
  = (Ok (jsonify (<["ready_for_translation" := VBool true]>
                    (<["languages" := VList languages]> r))), s').
Proof. intros Hrun. unfold respond, bind. by rewrite Hrun. Qed.

Lemma route_domain (query : string) (s : State) :
  (route query s).1 = "thirukkural" \/ (route query s).1 = "bhagavad_gita".
Proof.
  unfold route. destruct (is_follow_up_query query).
  - destruct (contains "kural" (lower query)); auto.
  - cbn [fst]. unfold determine_text_type.
    destruct (any_keyword_in thirukkural_keywords (lower query)); [auto|].
    destruct (any_keyword_in gita_keywords (lower query)); auto.
Qed.

(** X13: what [handle_query] answers, request by request.  It passes
    on the error of [request.json]; it raises an [AttributeError] when
    the body is no JSON object, or when the query is a truthy value
    that is no text; it answers 400 with an untouched state when the
    query is missing or falsy; and for a text that is not empty it
    answers 200 with a body that holds a verse, a translation, an
    explanation, a story, the ten locale codes and the translation
    flag, also when the generation failed. *)
Theorem handle_query_status (request_json : outcome Json) (s : State) :
  exists r s',
    handle_query request_json s = (r, s') /\
    (forall e, request_json = Raise e -> r = Raise e /\ s' = s) /\
    (forall data,
       request_json = Ok data -> (forall fields, data <> JObj fields) ->
       r = Raise (no_attribute data "get") /\ s' = s) /\
    (forall fields query,
       request_json = Ok (JObj fields) ->
       query = default JNull (fields !! "query") ->
       (truthy query = false ->
        r = Ok {| status := 400;
                  body := {[ "error" := VStr "Query is required" ]} |} /\
        s' = s) /\
       (truthy query = true -> (forall q : string, query <> JStr q) ->
        r = Raise (no_attribute query "lower") /\ s' = s) /\
       (forall q : string, query = JStr q -> q <> "" ->
        exists reply,
          r = Ok reply /\ status reply = 200 /\
          is_Some (body reply !! "verse") /\
          is_Some (body reply !! "translation") /\
          is_Some (body reply !! "explanation") /\
          is_Some (body reply !! "story") /\
          body reply !! "languages"
          = Some (VList ["ta"; "hi"; "ml"; "te"; "bn"; "gu"; "kn"; "mr"; "pa"; "ur"]) /\
          body reply !! "ready_for_translation" = Some (VBool true))).
Proof.
  destruct (handle_query_cases request_json s)
    as [(e & -> & Hrun) | [(data & -> & Hno & Hrun) | [(fields & -> & Ht & Hrun) |
       [(fields & -> & Ht & Hns & Hrun) | [(fields & query & -> & Hq & Hne & Hg & Hrun) |
        (fields & query & -> & Hq & Hne & Hg & Hrun)]]]]].
  - eexists _, _. split; [exact Hrun|]. split; [by intros ? [= <-]|].
    split; [done|]. done.
  - eexists _, _. split; [exact Hrun|]. split; [done|].
    split; [by intros ? [= <-] _|]. intros fields query [= ->]. by destruct (Hno fields).
  - eexists _, _. split; [exact Hrun|]. split; [done|]. split.
    { intros ? [= <-] Hno. by destruct (Hno fields). }
    intros ? query [= <-] ->. split; [done|]. split; [congruence|].
    intros q Hq Hne. rewrite Hq in Ht. cbn in Ht.
    apply negb_false_iff, String.eqb_eq in Ht. done.
  - eexists _, _. split; [exact Hrun|]. split; [done|]. split.
    { intros ? [= <-] Hno. by destruct (Hno fields). }
    intros ? query [= <-] ->. split; [congruence|]. split; [done|].
    intros q Hq. by destruct (Hns q).
  - eexists _, _. split; [exact Hrun|]. split; [done|]. split.
    { intros ? [= <-] Hno. by destruct (Hno fields). }
    intros ? query' [= <-] ->. rewrite Hq.
    assert (Htrue : truthy (JStr query) = true).
    { cbn. apply negb_true_iff. by apply String.eqb_neq. }
    split; [congruence|]. split; [intros _ Hns; by destruct (Hns query)|].
    intros q _ _. eexists. split; [done|]. by repeat split.
  - destruct (generate_response_cases (route query s).2 (route query s).1 s)
      as (r & s' & evs & Hgen & _ & Hcases).
    rewrite (respond_cases _ _ _ _ _ Hgen) in Hrun.
    eexists _, _. split; [exact Hrun|]. split; [done|]. split.
    { intros ? [= <-] Hno. by destruct (Hno fields). }
    intros ? query' [= <-] ->. rewrite Hq.
    assert (Htrue : truthy (JStr query) = true).
    { cbn. apply negb_true_iff. by apply String.eqb_neq. }
    split; [congruence|]. split; [intros _ Hns; by destruct (Hns query)|].
    intros q _ _. eexists. split; [done|]. split; [done|]. cbn [body jsonify].
    assert (Hr : is_Some (r !! "verse") /\ is_Some (r !! "translation") /\
                 is_Some (r !! "explanation") /\ is_Some (r !! "story")).
    { destruct Hcases as [(e & _ & -> & _) | [Hc | Hc]].
      - by repeat split.
      - destruct Hc as (p & s1 & _ & _ & _ & _ & (t & -> & _)). by repeat split.
      - destruct Hc as (p & s1 & _ & _ & _ & _ & (t & -> & _)). by repeat split. }
    destruct Hr as (Hv & Ht & He & Hs).
    rewrite !(lookup_insert_ne _ "ready_for_translation") by done.
    rewrite !(lookup_insert_ne _ "languages") by done.
    rewrite lookup_insert_eq, lookup_insert_eq. by repeat split.
Qed.

(** X14: a query that is a text, not empty and no greeting, reaches
    the model exactly once, with the prompt for its route: the
    classified domain and the query as typed, or for a follow-up the
    domain and the rewritten text.  If a turn is recorded, the user turn
    holds the routed text, in the log of the routed domain. *)
Theorem handle_query_model_call (data : gmap string Json) (query : string)
    (s : State) :
  data !! "query" = Some (JStr query) -> query <> "" ->
  in_list (lower query) greetings = false ->
  exists reply s' evs,
    handle_query (Ok (JObj data)) s = (Ok reply, s') /\
    trace s' = trace s ++ EvInvoke (prompt_for (route query s).2 (route query s).1 s)
                          :: evs /\
    Forall (fun ev => is_invoke ev = false) evs /\
    (is_follow_up_query query = false ->
     route query s = (determine_text_type query, query)) /\
    (same_logs s s' \/
     (exists summary,
        (route query s).1 = "thirukkural" /\
        messages (thirukkural_history s')
        = messages (thirukkural_history s)
          ++ [HumanMessage (route query s).2; AIMessage summary] /\
        bhagavad_gita_history s' = bhagavad_gita_history s) \/
     (exists summary,
        (route query s).1 = "bhagavad_gita" /\
        messages (bhagavad_gita_history s')
        = messages (bhagavad_gita_history s)
          ++ [HumanMessage (route query s).2; AIMessage summary] /\
        thirukkural_history s' = thirukkural_history s)).
Proof.
  intros Hq Hne Hg. apply String.eqb_neq in Hne.
  pose proof (handle_query_present data query s Hq Hne) as Hrun.
  rewrite Hg in Hrun.
  assert (Hroute : handle_query (Ok (JObj data)) s
                   = respond (route query s).2 (route query s).1 s).
  { rewrite Hrun. unfold route, bind. destruct (is_follow_up_query query); [|done].
    destruct (contains "kural" (lower query)) eqn:Hk.
    - pose proof Hk as Hk'. rewrite <- contains_kural in Hk'.
      by rewrite (follow_up_rewrite_kural _ s Hk').
    - pose proof Hk as Hk'. rewrite <- contains_kural in Hk'.
      by rewrite (follow_up_rewrite_other _ s Hk'). }
  clear Hrun.
  destruct (generate_response_cases (route query s).2 (route query s).1 s)
    as (r & s' & evs & Hgen & Htr & Hcases).
  rewrite (respond_cases _ _ _ _ _ Hgen) in Hroute.
  eexists _, s', evs. split; [exact Hroute|]. split; [done|].
  split; [|split].
  - destruct Hcases as [(e & _ & _ & _ & ->) | [Hc | Hc]].
    + by repeat constructor.
    + by destruct Hc as (? & ? & _ & _ & _ & _ & (? & _ & _ & _ & Hinv & _)).
    + by destruct Hc as (? & ? & _ & _ & _ & _ & (? & _ & _ & _ & Hinv & _)).
  - intros Hnf. unfold route. by rewrite Hnf.
  - destruct Hcases as [(e & _ & _ & Hlogs & _) | [Hc | Hc]]; [by left| |].
    + destruct Hc as (p & s1 & [Hd _] & Hlog & Hother & _ & (t & _ & [Ht Hgl] & _)).
      right. left. eexists. split; [done|]. rewrite Ht, Hgl. by split.
    + destruct Hc as (p & s1 & [Hd _] & Hlog & Hother & _ & (t & _ & [Ht Hgl] & _)).
      right. right. eexists. split.
      { by destruct (route_domain query s). }
      rewrite Ht, Hgl. by split.
Qed.




(** X16: when the logs are made of exchanges, the text a follow-up is
    rewritten from is the most recent user query of the other domain
    (the empty text if there is none). *)
Theorem follow_up_reads_last_user_query (query : string) (s : State) :
  paired_logs s ->
  (occurs_in "kural" (lower query) ->
   follow_up_rewrite query s
   = (Ok ("thirukkural",
          last_user_query (bhagavad_gita_history s) +:+ " (in Thirukkural)"), s)) /\
  (~ occurs_in "kural" (lower query) ->
   follow_up_rewrite query s
   = (Ok ("bhagavad_gita",
          last_user_query (thirukkural_history s) +:+ " (in Bhagavad Gita)"), s)).
Proof.
  intros [Hpt Hpg]. rewrite <- contains_spec. split; intros Hk.
  - rewrite <- contains_kural in Hk.
    by rewrite (follow_up_rewrite_kural _ s Hk), paired_second_to_last.
  - apply not_true_is_false in Hk. rewrite <- contains_kural in Hk.
    by rewrite (follow_up_rewrite_other _ s Hk), paired_second_to_last.
Qed.

End HandlerExtras.

(** ** The handlers at work on the concrete runtime and outside worlds *)

#[local] Existing Instance ascii_python.

Lemma demo_generated :
  thirukkural_generated (H := demo_backend) "patience" "thirukkural" empty_state
    demo_thirukkural.
Proof. split; [reflexivity|]. exists "reply". split; reflexivity. Defined.

Lemma demo_ur_fails : always_fails (H := demo_backend) "ur".
Proof. intros text0 s. eexists _, _. vm_compute. reflexivity. Defined.

Lemma demo_ta_translates : always_translates (H := demo_backend) "ta".
Proof. intros text0 s. eexists _, _. vm_compute. reflexivity. Defined.

(** C7, as the claim words it, fails: the summary the code appends is
    written with a hyphen, so no label makes it the text
    "<Label> — Translation: <translation>" with a dash. *)
Lemma summary_dash_counterexample :
  thirukkural_generated (H := demo_backend) "patience" "thirukkural" empty_state
    demo_thirukkural /\
  forall label : string,
    AIMessage (label +:+ " — Translation: " +:+ tk_translation demo_thirukkural)
    ∉ messages (thirukkural_history
        (generate_response (H := demo_backend) "patience" "thirukkural" empty_state).2).
Proof.
  split; [exact demo_generated|]. intros label Hin.
  assert (Hlog : messages (thirukkural_history
            (generate_response (H := demo_backend) "patience" "thirukkural"
               empty_state).2)
          = [HumanMessage "patience";
             AIMessage "Thirukkural about aram - Translation: T"])
    by (vm_compute; reflexivity).
  rewrite Hlog in Hin. clear Hlog.
  apply elem_of_cons in Hin as [Hin|Hin]; [discriminate|].
  apply elem_of_cons in Hin as [Hin|Hin]; [|by apply elem_of_nil in Hin].
  injection Hin as Hin. apply append_suffix in Hin.
  vm_compute in Hin. discriminate.
Qed.

Lemma demo_outage_fails :
  generation_fails (H := demo_backend) "outage" "thirukkural" talked_state
    "503 model unavailable".
Proof. apply llm_raises. vm_compute. reflexivity. Defined.

Lemma demo_nonsense_fails :
  generation_fails (H := demo_backend) "nonsense" "bhagavad_gita" talked_state
    "Invalid json output: garbage".
Proof.
  apply (parse_raises (H := demo_backend) _ _ _ _ "garbage");
    vm_compute; reflexivity.
Defined.

(** The follow-up "another kural" is answered from the Gita log. *)
Lemma handle_query_follow_up_witness :
  is_follow_up_query "another kural" = true /\
  occurs_in "kural" (lower "another kural") /\
  handle_query (H := demo_backend) (Ok (JObj kural_request)) talked_state
  = respond (H := demo_backend) "duty (in Thirukkural)" "thirukkural" talked_state.
Proof.
  assert (Hk : occurs_in "kural" (lower "another kural"))
    by (exists "another ", ""; reflexivity).
  split; [reflexivity|]. split; [exact Hk|].
  exact (proj2 (proj1 (handle_query_follow_up (H := demo_backend)
                         kural_request "another kural"
                         talked_state eq_refl eq_refl)
                  (or_intror Hk))).
Defined.

(** Six words with a keyword are no follow-up. *)
Lemma is_follow_up_query_iff_witness :
  (5 < length (split "one more kural on patience please"))%nat /\
  is_follow_up_query "one more kural on patience please" = false.
Proof.
  assert (Hlong : (5 < length (split "one more kural on patience please"))%nat)
    by (vm_compute; lia).
  split; [exact Hlong|].
  exact (proj2 (proj2 (proj2 is_follow_up_query_iff)) _ Hlong).
Defined.

(** A query that mentions both texts goes to the Thirukkural. *)
Lemma determine_text_type_spec_witness :
  mentions thirukkural_keywords (lower "A Kural like the Gita") /\
  mentions gita_keywords (lower "A Kural like the Gita") /\
  determine_text_type "A Kural like the Gita" = "thirukkural".
Proof.
  assert (Ht : mentions thirukkural_keywords (lower "A Kural like the Gita")).
  { exists "kural". split; [|exists "a ", " like the gita"; reflexivity].
    apply list_elem_of_In. simpl. tauto. }
  split; [exact Ht|]. split.
  - exists "gita". split; [|exists "a kural like the ", ""; reflexivity].
    apply list_elem_of_In. simpl. tauto.
  - exact (proj1 (determine_text_type_spec "A Kural like the Gita") Ht).
Defined.

(** The model is down: the reply is the error reply. *)
Lemma generate_response_error_sentinel_witness :
  generation_fails (H := demo_backend) "outage" "thirukkural" talked_state
    "503 model unavailable" /\
  exists response s',
    generate_response (H := demo_backend) "outage" "thirukkural" talked_state
    = (Ok response, s') /\
    response !! "verse" = Some (VStr "Error") /\
    response !! "translation" = Some (VStr "Error") /\
    response !! "section" = Some (VStr "Error") /\
    response !! "explanation"
    = Some (VStr ("An error occurred: " +:+ "503 model unavailable")) /\
    response !! "translations" = Some (VDict ∅).
Proof.
  split; [exact demo_outage_fails|].
  exact (generate_response_error_sentinel (H := demo_backend) "outage" "thirukkural"
           talked_state "503 model unavailable" (or_introl demo_outage_fails)).
Defined.

(** The parser rejects the reply: both logs are as they were. *)
Lemma generate_response_failure_keeps_logs_witness :
  generation_fails (H := demo_backend) "nonsense" "bhagavad_gita" talked_state
    "Invalid json output: garbage" /\
  exists s',
    generate_response (H := demo_backend) "nonsense" "bhagavad_gita" talked_state
    = (Ok (error_response "Invalid json output: garbage"), s') /\
    messages (thirukkural_history s') = messages (thirukkural_history talked_state) /\
    messages (bhagavad_gita_history s')
    = messages (bhagavad_gita_history talked_state) /\
    trace s'
    = trace talked_state
      ++ [EvInvoke (prompt_for (H := demo_backend) "nonsense" "bhagavad_gita"
                      talked_state);
          EvLog ("Error generating response: " +:+ "Invalid json output: garbage")].
Proof.
  split; [exact demo_nonsense_fails|].
  exact (generate_response_failure_keeps_logs (H := demo_backend) "nonsense"
           "bhagavad_gita" talked_state _ demo_nonsense_fails).
Defined.

(** A first question about patience leaves two turns in the
    Thirukkural log. *)
Lemma generate_response_appends_two_turns_witness :
  thirukkural_generated (H := demo_backend) "patience" "thirukkural" empty_state
    demo_thirukkural /\
  exists response s',
    generate_response (H := demo_backend) "patience" "thirukkural" empty_state
    = (Ok response, s') /\
    messages (thirukkural_history s')
    = [HumanMessage "patience";
       AIMessage "Thirukkural about aram - Translation: T"] /\
    messages (bhagavad_gita_history s') = [].
Proof.
  split; [exact demo_generated|].
  exact (proj1 (generate_response_appends_two_turns (H := demo_backend) "patience"
                  "thirukkural" empty_state) demo_thirukkural demo_generated).
Defined.

(** The service is down for "ur" only: "ur" gets the fixed entry, "ta"
    its three translations. *)
Lemma translation_relay_isolates_failures_witness :
  generated (H := demo_backend) "patience" "thirukkural" empty_state
    (thirukkural_dict demo_thirukkural) /\
  always_fails (H := demo_backend) "ur" /\
  always_translates (H := demo_backend) "ta" /\
  exists translations s',
    generate_response (H := demo_backend) "patience" "thirukkural" empty_state
    = (Ok (<["translations" := VDict translations]>
             (VStr <$> thirukkural_dict demo_thirukkural)), s') /\
    translations !! "ur" = Some translation_failed /\
    exists entry, translations !! "ta" = Some entry /\
                  translated_entry (H := demo_backend)
                    (thirukkural_dict demo_thirukkural) "ta" entry.
Proof.
  assert (Hgen : generated (H := demo_backend) "patience" "thirukkural" empty_state
                   (thirukkural_dict demo_thirukkural)).
  { left. exists demo_thirukkural. split; [exact demo_generated | reflexivity]. }
  split; [exact Hgen|]. split; [exact demo_ur_fails|].
  split; [exact demo_ta_translates|].
  destruct (translation_relay_isolates_failures (H := demo_backend) _ _ _ _ Hgen)
    as (translations & s' & Hrun & _ & _ & Hfail & Hok).
  exists translations, s'. split; [exact Hrun|]. split.
  - apply Hfail; [|exact demo_ur_fails]. apply list_elem_of_In. simpl. tauto.
  - apply Hok; [|exact demo_ta_translates]. apply list_elem_of_In. simpl. tauto.
Defined.

(** "Hi" is greeted. *)
Lemma handle_query_greeting_witness :
  lower "Hi" = lower "hi" /\
  handle_query (H := demo_backend) (Ok (JObj greeting_request)) talked_state
  = (Ok (jsonify greeting_response), talked_state).
Proof.
  split; [reflexivity|].
  refine (proj1 (handle_query_greeting (H := demo_backend) greeting_request
                   "Hi" "hi" talked_state eq_refl _ eq_refl)).
  apply list_elem_of_In. simpl. tauto.
Defined.

(** C9, as the claim words it, fails: a body that is a JSON list has no
    query field, and so has the body null, yet the handler does not
    answer 400 with the error body: it raises.  Nor does it answer when
    [request.json] raises, as the framework does for an empty body. *)
Lemma handle_query_not_object_counterexample :
  handle_query (H := demo_backend) (Ok (JArr [])) talked_state
  = (Raise "'list' object has no attribute 'get'", talked_state) /\
  handle_query (H := demo_backend) (Ok JNull) talked_state
  = (Raise "'NoneType' object has no attribute 'get'", talked_state) /\
  handle_query (H := demo_backend) (Raise "400 Bad Request") talked_state
  = (Raise "400 Bad Request", talked_state) /\
  handle_query (H := demo_backend) (Ok (JArr [])) talked_state
  <> (Ok {| status := 400; body := {[ "error" := VStr "Query is required" ]} |},
      talked_state).
Proof. repeat split; try reflexivity. discriminate. Qed.

(** The empty object is refused. *)
Lemma handle_query_missing_query_witness :
  (∅ : gmap string Json) !! "query" = None /\
  handle_query (H := demo_backend) (Ok (JObj ∅)) talked_state
  = (Ok {| status := 400; body := {[ "error" := VStr "Query is required" ]} |},
     talked_state).
Proof.
  split; [reflexivity|].
  exact (handle_query_missing_query (H := demo_backend) ∅ talked_state eq_refl).
Defined.


Lemma demo_up_translates (lang : string) : always_translates (H := demo_backend_up) lang.
Proof. intros text0 s. eexists _, _. vm_compute. reflexivity. Defined.

Lemma demo_up_generated :
  generated (H := demo_backend_up) "patience" "thirukkural" empty_state
    (thirukkural_dict demo_thirukkural).
Proof.
  left. exists demo_thirukkural. split; [|reflexivity].
  split; [reflexivity|]. exists "reply". split; reflexivity.
Defined.

Lemma demo_unconfigured_generated :
  generated (H := demo_backend_unconfigured) "patience" "thirukkural" empty_state
    (thirukkural_dict demo_thirukkural).
Proof.
  left. exists demo_thirukkural. split; [|reflexivity].
  split; [reflexivity|]. exists "reply". split; reflexivity.
Defined.

Lemma talked_state_paired : paired_logs talked_state.
Proof. split; apply (paired_turn [] _ _ paired_nil). Defined.

(** Of twelve messages the last ten are read with a window of ten. *)
Lemma recent_messages_window_witness :
  1 <= 10 /\
  recent_messages {| messages := long_log |} 10 = drop 2 long_log.
Proof.
  split; [lia|].
  exact (proj1 (proj1 (recent_messages_window (take 2 long_log) (drop 2 long_log) 10
                         ltac:(lia)) eq_refl)).
Defined.

Lemma generate_response_reply_shape_witness :
  thirukkural_generated (H := demo_backend) "patience" "thirukkural" empty_state
    demo_thirukkural /\
  exists r s' translations,
    generate_response (H := demo_backend) "patience" "thirukkural" empty_state
    = (Ok r, s') /\
    r !! "verse" = Some (VStr "V") /\
    r !! "translation" = Some (VStr "T") /\
    r !! "section" = Some (VStr "Aram") /\
    r !! "explanation" = Some (VStr "E") /\
    r !! "story" = Some (VStr "S") /\
    r !! "chapter" = None /\
    r !! "translations" = Some (VDict translations).
Proof.
  split; [exact demo_generated|].
  exact (proj1 (generate_response_reply_shape (H := demo_backend) "patience"
                  "thirukkural" empty_state) demo_thirukkural demo_generated).
Defined.

(** With a service that answers for every locale, thirty posts go out. *)
Lemma generate_response_posts_witness :
  (forall lang, lang ∈ languages -> always_translates (H := demo_backend_up) lang) /\
  (exists d, generated (H := demo_backend_up) "patience" "thirukkural" empty_state d) /\
  exists r s' evs,
    generate_response (H := demo_backend_up) "patience" "thirukkural" empty_state
    = (Ok r, s') /\
    trace s' = trace empty_state ++ evs /\ count_posts evs = 30%nat.
Proof.
  split; [intros lang _; apply demo_up_translates|].
  split; [exists (thirukkural_dict demo_thirukkural); exact demo_up_generated|].
  destruct (generate_response_posts (H := demo_backend_up) "patience" "thirukkural"
              empty_state) as (r & s' & evs & Hrun & Htr & _ & _ & Hall).
  exists r, s', evs. split; [exact Hrun|]. split; [exact Htr|].
  apply Hall.
  - intros lang _. apply demo_up_translates.
  - exists (thirukkural_dict demo_thirukkural). exact demo_up_generated.
Defined.

(** Without a key every locale fails and nothing is posted. *)
Lemma generate_response_unconfigured_witness :
  configured (H := demo_backend_unconfigured) = false /\
  exists translations s' evs,
    generate_response (H := demo_backend_unconfigured) "patience" "thirukkural"
      empty_state
    = (Ok (<["translations" := VDict translations]>
             (VStr <$> thirukkural_dict demo_thirukkural)), s') /\
    (forall lang, lang ∈ languages ->
       translations !! lang = Some translation_failed) /\
    trace s' = trace empty_state ++ evs /\ count_posts evs = O.
Proof.
  split; [reflexivity|].
  exact (generate_response_unconfigured (H := demo_backend_unconfigured) "patience"
           "thirukkural" empty_state _ eq_refl demo_unconfigured_generated).
Defined.

Lemma translate_text_effect_witness :
  configured (H := demo_backend) = true /\
  exists r,
    translate_text (H := demo_backend) "peace" "ta" empty_state
    = (r, emit (EvPost "http://mt/translate?api-version=3.0&to=ta"
                  [("Ocp-Apim-Subscription-Key", "key");
                   ("Ocp-Apim-Subscription-Region", "centralindia");
                   ("Content-Type", "application/json")] "peace") empty_state).
Proof.
  split; [reflexivity|].
  destruct (proj1 (proj2 (translate_text_effect (H := demo_backend) "peace" "ta"
                            empty_state)) eq_refl) as (r & Hrun & _).
  exists r. exact Hrun.
Defined.

Lemma handle_translation_missing_field_witness :
  truthy (default JNull (incomplete_translation_request !! "story")) = false /\
  handle_translation (H := demo_backend) (Ok (JObj incomplete_translation_request))
    talked_state
  = (Ok {| status := 400;
           body := {[ "error" :=
             VStr "Text, explanation, story, and target language are required" ]} |},
     talked_state).
Proof.
  split; [reflexivity|].
  refine (proj1 (handle_translation_missing_field (H := demo_backend)
                   incomplete_translation_request "story" talked_state
                   _ eq_refl)).
  apply list_elem_of_In. simpl. tauto.
Defined.

Lemma handle_translation_outcomes_witness :
  exists reply s',
    handle_translation (H := demo_backend) (Ok (JObj demo_translation_request))
      talked_state
    = (Ok reply, s') /\
    same_logs talked_state s'.
Proof.
  assert (Ht : demo_translation_request !! "text" = Some (JStr "peace"))
    by (vm_compute; reflexivity).
  assert (He : demo_translation_request !! "explanation" = Some (JStr "calm"))
    by (vm_compute; reflexivity).
  assert (Hs : demo_translation_request !! "story" = Some (JStr "once"))
    by (vm_compute; reflexivity).
  assert (Hl : demo_translation_request !! "language" = Some (JStr "ta"))
    by (vm_compute; reflexivity).
  destruct (handle_translation_outcomes (H := demo_backend) demo_translation_request
              "peace" "calm" "once" "ta" talked_state Ht He Hs Hl
              ltac:(discriminate) ltac:(discriminate) ltac:(discriminate)
              ltac:(discriminate))
    as (reply & s' & Hrun & Hlogs & _).
  exists reply, s'. exact (conj Hrun Hlogs).
Defined.

(** A plain question about dharma goes to the model as typed, for the
    Bhagavad Gita. *)
Lemma handle_query_model_call_witness :
  in_list (lower "What is dharma in daily life today") greetings = false /\
  exists reply s' evs,
    handle_query (H := demo_backend) (Ok (JObj dharma_request)) talked_state
    = (Ok reply, s') /\
    trace s'
    = trace talked_state
      ++ EvInvoke (prompt_for (H := demo_backend)
                     "What is dharma in daily life today" "bhagavad_gita" talked_state)
         :: evs.
Proof.
  assert (Hg : in_list (lower "What is dharma in daily life today") greetings = false)
    by (vm_compute; reflexivity).
  split; [exact Hg|].
  assert (Hq : dharma_request !! "query"
               = Some (JStr "What is dharma in daily life today"))
    by (vm_compute; reflexivity).
  destruct (handle_query_model_call (H := demo_backend) dharma_request
              "What is dharma in daily life today" talked_state
              Hq ltac:(discriminate) Hg)
    as (reply & s' & evs & Hrun & Htr & _).
  exists reply, s', evs. exact (conj Hrun Htr).
Defined.


Lemma follow_up_reads_last_user_query_witness :
  paired_logs talked_state /\
  occurs_in "kural" (lower "another kural") /\
  follow_up_rewrite "another kural" talked_state
  = (Ok ("thirukkural", "duty (in Thirukkural)"), talked_state).
Proof.
  assert (Hk : occurs_in "kural" (lower "another kural"))
    by (exists "another ", ""; reflexivity).
  split; [exact talked_state_paired|]. split; [exact Hk|].
  exact (proj1 (follow_up_reads_last_user_query "another kural"
                  talked_state talked_state_paired) Hk).
Defined.
